(** * FIT-FLIX RAG system: text splitter, retriever and context builder

    A shallow embedding of
      - [interfaces/src/utils/text_splitter.py]   (class [TextSplitter]),
      - [interfaces/src/retrieval/retriever.py]   (class [DocumentRetriever]),
      - [interfaces/src/generation/llm_manager.py] ([LLMManager._build_context]),
    together with the properties of these functions that the specification
    states.

    Conventions.
      - A Python [str] is a [text]: the list of its code points.  Code points
        are [ascii] values, read as the code points 0..255.
      - A Python [int] is a [Z]; [len] is [Z.of_nat (length _)].
      - A Python [dict] with string keys is a [gmap string _].
      - A call that may raise returns a [result]. *)

From Stdlib Require Import ZArith List Ascii String Lia Bool DecimalString DecimalZ.
From Stdlib Require Import Floats.SpecFloat.
From stdpp Require Import base option list gmap strings.

Import ListNotations.
Local Open Scope Z_scope.

(** ** Python strings *)

Abbreviation text := (list ascii).

(** String literals of the source, as texts. *)
Notation "'py' s" := (list_ascii_of_string s%string)
  (at level 1, s at level 0, format "'py' s").

Definition len {A} (l : list A) : Z := Z.of_nat (length l).

Module PyStr.

(** [str.isspace] on one code point below 256: TAB..CR, FS..US, SPACE,
    NEL (0x85) and NBSP (0xA0).  The same predicate is the [\s] of [re]
    on [str] patterns and the separator set of [str.split()] and
    [str.strip()]. *)
Definition isspace (c : ascii) : bool :=
  let n := N_of_ascii c in
  (((9 <=? n) && (n <=? 13)) || ((28 <=? n) && (n <=? 32))
   || (n =? 133) || (n =? 160))%N.

Definition space : ascii := " "%char.

Fixpoint lstrip (s : text) : text :=
  match s with
  | [] => []
  | c :: s' => if isspace c then lstrip s' else s
  end.

Definition rstrip (s : text) : text := rev (lstrip (rev s)).

(** [s.strip()] *)
Definition strip (s : text) : text := lstrip (rstrip s).

(** [s.split()]: the maximal runs of non-whitespace code points. *)
Fixpoint split_from (cur : text) (s : text) : list text :=
  match s with
  | [] => match cur with [] => [] | _ => [cur] end
  | c :: s' =>
      if isspace c
      then match cur with
           | [] => split_from [] s'
           | _ => cur :: split_from [] s'
           end
      else split_from (cur ++ [c]) s'
  end.

Definition split (s : text) : list text := split_from [] s.

(** [sep.join(l)] *)
Fixpoint join (sep : text) (l : list text) : text :=
  match l with
  | [] => []
  | [w] => w
  | w :: l' => w ++ sep ++ join sep l'
  end.

(** [s.find(c)] for a one-character needle: first index, or -1. *)
Fixpoint find_from (c : ascii) (s : text) (i : Z) : Z :=
  match s with
  | [] => -1
  | x :: s' => if Ascii.eqb x c then i else find_from c s' (i + 1)
  end.

Definition find (s : text) (c : ascii) : Z := find_from c s 0.

(** [s[i:]] for any integer [i], with Python's clamping: a negative [i]
    counts from the end. *)
Definition slice_from {A} (s : list A) (i : Z) : list A :=
  let n := len s in
  let start := if i <? 0 then Z.max 0 (n + i) else Z.min i n in
  drop (Z.to_nat start) s.

(** [l[:-1]] *)
Definition but_last {A} (l : list A) : list A := removelast l.

(** [l[-1] if l else d] *)
Definition last_or {A} (l : list A) (d : A) : A := List.last l d.

End PyStr.

(** ** The [re.split] of [_split_by_sentences] *)

Module Re.

Definition is_terminator (prev : option ascii) : bool :=
  match prev with
  | Some c => Ascii.eqb c "." || Ascii.eqb c "!" || Ascii.eqb c "?"
  | None => false
  end.

(** [re.split(r'(?<=[.!?])\s+', text)].  A match starts at a whitespace
    code point whose predecessor is one of [.!?] and extends over the whole
    whitespace run; [skipping] is set while the scan is inside a match.
    The pieces between matches are returned, empty ones included. *)
Fixpoint split_scan (prev : option ascii) (skipping : bool)
         (cur : text) (s : text) : list text :=
  match s with
  | [] => [cur]
  | c :: s' =>
      if skipping && PyStr.isspace c
      then split_scan (Some c) true cur s'
      else if PyStr.isspace c && is_terminator prev
      then cur :: split_scan (Some c) true [] s'
      else split_scan (Some c) false (cur ++ [c]) s'
  end.

Definition split_sentence_boundaries (s : text) : list text :=
  split_scan None false [] s.

Definition newline : ascii := "010"%char.

(** [\s*\n] tried at the start of [s]: the number of code points it
    matches.  The star is greedy and backtracks, so a code point is first
    given to [\s*]; when the rest then fails, it has to be the newline. *)
Fixpoint match_gap (s : text) : option nat :=
  match s with
  | [] => None
  | c :: s' =>
      if PyStr.isspace c then
        match match_gap s' with
        | Some n => Some (S n)
        | None => if Ascii.eqb c newline then Some 1%nat else None
        end
      else None
  end.

(** [re.split(r'\n\s*\n', text)], scanning from the left; [skip] counts the
    code points of the current match that are still to be passed over. *)
Fixpoint split_gaps (skip : nat) (cur : text) (s : text) : list text :=
  match s with
  | [] => [cur]
  | c :: s' =>
      match skip with
      | S skip' => split_gaps skip' cur s'
      | O =>
          if Ascii.eqb c newline then
            match match_gap s' with
            | Some n => cur :: split_gaps n [] s'
            | None => split_gaps 0 (cur ++ [c]) s'
            end
          else split_gaps 0 (cur ++ [c]) s'
      end
  end.

Definition split_blank_lines (s : text) : list text := split_gaps 0 [] s.

End Re.

(** ** Python values and exceptions *)

(** The values that occur in the dictionaries of this program. *)
#[local] Unset Elimination Schemes.
Inductive pyval :=
  | VNone
  | VInt (n : Z)
  | VFloat (f : spec_float)
  | VStr (s : text)
  | VDict (d : gmap string pyval).
#[local] Set Elimination Schemes.

(** A Python [dict] with string keys. *)
Abbreviation pydict := (gmap string pyval).

(** Exceptions, all of them subclasses of [Exception].  [External] is an
    error raised inside a collaborator (vector store, embedding model);
    its argument is [str(e)]. *)
Inductive exn :=
  | KeyError (key : string)
  | TypeError
  | AttributeError
  | IndexError
  | ValueError
  | OverflowError
  | RuntimeError (msg : text)
  | External (msg : text).

Inductive result (A : Type) :=
  | Ok (a : A)
  | Raise (e : exn).
Arguments Ok {A} a.
Arguments Raise {A} e.

Definition bind {A B} (r : result A) (k : A -> result B) : result B :=
  match r with
  | Ok a => k a
  | Raise e => Raise e
  end.

#[global] Instance result_bind : MBind result := fun A B k r => bind r k.
#[global] Instance result_ret : MRet result := fun A a => Ok a.

(** [d[key]] *)
Definition getitem (d : pydict) (key : string) : result pyval :=
  match d !! key with
  | Some v => Ok v
  | None => Raise (KeyError key)
  end.

(** [v.get(key, dflt)]: only a [dict] has the attribute [get]. *)
Definition get (v : pyval) (key : string) (dflt : pyval) : result pyval :=
  match v with
  | VDict d => Ok (default dflt (d !! key))
  | _ => Raise AttributeError
  end.

(** [len(v)] *)
Definition py_len (v : pyval) : result Z :=
  match v with
  | VStr s => Ok (len s)
  | VDict d => Ok (Z.of_nat (size d))
  | _ => Raise TypeError
  end.

(** [{**v}]: unpacking needs a mapping. *)
Definition unpack (v : pyval) : result pydict :=
  match v with
  | VDict d => Ok d
  | _ => Raise TypeError
  end.

(** [l[i]] on a list, for [0 <= i]. *)
Definition index {A} (l : list A) (i : nat) : result A :=
  match l !! i with
  | Some x => Ok x
  | None => Raise IndexError
  end.

(** ** [class Config] (the two text-processing settings) *)

Record Config := mkConfig {
  cfg_chunk_size : Z;
  cfg_chunk_overlap : Z
}.

(** [Config()] as the source initialises it. *)
Definition default_config : Config :=
  {| cfg_chunk_size := 1000; cfg_chunk_overlap := 200 |}.

(** [a or b] on an optional integer argument: [None] and [0] are falsy. *)
Definition int_or (a : option Z) (b : Z) : Z :=
  match a with
  | Some n => if n =? 0 then b else n
  | None => b
  end.

(** ** [class TextSplitter] *)

Module TextSplitter.

Import PyStr.

Record t := mk {
  chunk_size : Z;
  chunk_overlap : Z
}.

(** [__init__] *)
Definition init (config : Config) : t :=
  {| chunk_size := cfg_chunk_size config;
     chunk_overlap := cfg_chunk_overlap config |}.

(** [_split_by_sentences] *)
Definition _split_by_sentences (s : text) : list text :=
  map (fun s => s ++ [space])
      (filter (fun s => strip s <> []) (Re.split_sentence_boundaries s)).

(** [_get_overlap_text] *)
Definition _get_overlap_text (s : text) (overlap_size : Z) : text :=
  if len s <=? overlap_size then s
  else
    let overlap_text := slice_from s (- overlap_size) in
    let space_idx := find overlap_text space in
    if space_idx >? 0 then slice_from overlap_text (space_idx + 1)
    else overlap_text.

(** The loop of [_get_overlap_words] over [reversed(words)]; [break]
    returns the words collected so far. *)
Fixpoint overlap_words_loop (rwords : list text) (overlap_size : Z)
         (overlap_words : list text) (current_length : Z) : list text :=
  match rwords with
  | [] => overlap_words
  | word :: rest =>
      if current_length + len word + 1 >? overlap_size
      then overlap_words
      else overlap_words_loop rest overlap_size (word :: overlap_words)
                              (current_length + len word + 1)
  end.

(** [_get_overlap_words] *)
Definition _get_overlap_words (words : list text) (overlap_size : Z)
  : list text :=
  match words with
  | [] => []
  | _ => overlap_words_loop (rev words) overlap_size [] 0
  end.

(** [sum(len(w) + 1 for w in current_chunk)] *)
Definition estimated_length (current_chunk : list text) : Z :=
  fold_right (fun w acc => (len w + 1) + acc) 0 current_chunk.

(** One iteration of the [for word in words] loop of
    [_split_long_sentence], on the state [(chunks, current_chunk)]. *)
Definition long_sentence_step (chunk_size chunk_overlap : Z)
           (st : list text * list text) (word : text)
  : list text * list text :=
  let '(chunks, current_chunk) := st in
  let current_length := estimated_length current_chunk in
  if current_length + len word >? chunk_size then
    match current_chunk with
    | _ :: _ =>
        let chunks := chunks ++ [join [space] current_chunk] in
        let overlap_words := _get_overlap_words current_chunk chunk_overlap in
        (chunks, overlap_words ++ [word])
    | [] => (chunks ++ [word], [])
    end
  else (chunks, current_chunk ++ [word]).

(** [_split_long_sentence] *)
Definition _split_long_sentence (sentence : text)
           (chunk_size chunk_overlap : Z) : list text :=
  let words := split sentence in
  let '(chunks, current_chunk) :=
    fold_left (long_sentence_step chunk_size chunk_overlap) words ([], []) in
  match current_chunk with
  | _ :: _ => chunks ++ [join [space] current_chunk]
  | [] => chunks
  end.

(** One iteration of the [for sentence in sentences] loop of [split_text],
    on the state [(chunks, current_chunk)]. *)
Definition split_text_step (chunk_size chunk_overlap : Z)
           (st : list text * text) (sentence : text) : list text * text :=
  let '(chunks, current_chunk) := st in
  if len current_chunk + len sentence >? chunk_size then
    match current_chunk with
    | _ :: _ =>
        let chunks := chunks ++ [strip current_chunk] in
        let overlap_text := _get_overlap_text current_chunk chunk_overlap in
        (chunks, overlap_text ++ sentence)
    | [] =>
        let sentence_chunks :=
          _split_long_sentence sentence chunk_size chunk_overlap in
        (chunks ++ but_last sentence_chunks, last_or sentence_chunks [])
    end
  else (chunks, current_chunk ++ sentence).

(** The statements after the loop of [split_text]. *)
Definition split_text_finish (st : list text * text) : list text :=
  let '(chunks, current_chunk) := st in
  match strip current_chunk with
  | _ :: _ => chunks ++ [strip current_chunk]
  | [] => chunks
  end.

(** [split_text] *)
Definition split_text (self : t) (s : text)
           (chunk_size chunk_overlap : option Z) : list text :=
  let chunk_size := int_or chunk_size (TextSplitter.chunk_size self) in
  let chunk_overlap := int_or chunk_overlap (TextSplitter.chunk_overlap self) in
  if len s <=? chunk_size then [s]
  else
    let sentences := _split_by_sentences s in
    split_text_finish
      (fold_left (split_text_step chunk_size chunk_overlap) sentences ([], [])).

(** [self.split_text(v)] for an arbitrary value [v]: [len] rejects what
    has no length, and a [dict] longer than [chunk_size] reaches
    [re.split], which rejects it. *)
Definition split_text_value (self : t) (v : pyval) : result (list pyval) :=
  match v with
  | VStr s => Ok (map VStr (split_text self s None None))
  | VDict d =>
      if Z.of_nat (size d) <=? int_or None (chunk_size self)
      then Ok [v] else Raise TypeError
  | _ => Raise TypeError
  end.

(** The body of [for i, chunk in enumerate(chunks)] in [split_documents]:
    builds [chunked_doc]. *)
Definition chunked_doc (doc : pydict) (chunks : list pyval)
           (i : nat) (chunk : pyval) : result pydict :=
  md ← getitem doc "metadata";
  md ← unpack md;
  content ← getitem doc "content";
  original_length ← py_len content;
  Ok ({[ "content" := chunk;
         "metadata" :=
           VDict (<["original_length" := VInt original_length]>
                  (<["total_chunks" := VInt (len chunks)]>
                   (<["chunk_id" := VInt (Z.of_nat i)]> md))) ]} : pydict).

(** The inner loop.  [chunked_documents] is appended to in place, so what
    was appended before an exception stays appended. *)
Fixpoint stamp_chunks (doc : pydict) (chunks : list pyval)
         (i : nat) (rest : list pyval) (chunked_documents : list pydict)
  : list pydict * option exn :=
  match rest with
  | [] => (chunked_documents, None)
  | chunk :: rest' =>
      match chunked_doc doc chunks i chunk with
      | Ok cd => stamp_chunks doc chunks (S i) rest' (chunked_documents ++ [cd])
      | Raise e => (chunked_documents, Some e)
      end
  end.

(** The [try] block of [split_documents] for one document. *)
Definition split_document_try (self : t) (doc : pydict)
           (chunked_documents : list pydict) : list pydict * option exn :=
  match content ← getitem doc "content"; split_text_value self content with
  | Ok chunks => stamp_chunks doc chunks 0 chunks chunked_documents
  | Raise e => (chunked_documents, Some e)
  end.

(** The [except] block: the logged message reads
    [doc.get('metadata', {}).get('source', 'unknown')]. *)
Definition split_document_except (doc : pydict) : result unit :=
  _ ← get (default (VDict ∅) (doc !! "metadata")) "source" (VStr py"unknown");
  Ok tt.

(** [split_documents] *)
Fixpoint split_documents_from (self : t) (documents : list pydict)
         (chunked_documents : list pydict) : result (list pydict) :=
  match documents with
  | [] => Ok chunked_documents
  | doc :: documents' =>
      match split_document_try self doc chunked_documents with
      | (chunked_documents, None) =>
          split_documents_from self documents' chunked_documents
      | (chunked_documents, Some _) =>
          _ ← split_document_except doc;
          split_documents_from self documents' chunked_documents
      end
  end.

Definition split_documents (self : t) (documents : list pydict)
  : result (list pydict) :=
  split_documents_from self documents [].

(** [split_by_sections] *)
Definition split_by_sections (s : text) : list text :=
  map strip
      (List.filter (fun section => len (strip section) >? 50)
                   (Re.split_blank_lines s)).

(** One iteration of the [for section in sections] loop of
    [adaptive_split]. *)
Definition adaptive_step (self : t) (max_chunk_size : Z)
           (chunks : list text) (section : text) : list text :=
  if len section <=? max_chunk_size then chunks ++ [section]
  else chunks ++ split_text self section (Some max_chunk_size) None.

(** [adaptive_split] *)
Definition adaptive_split (self : t) (s : text) (max_chunk_size : option Z)
  : list text :=
  let max_chunk_size := int_or max_chunk_size (chunk_size self) in
  let sections := split_by_sections s in
  fold_left (adaptive_step self max_chunk_size) sections [].

(** One iteration of the [for chunk in chunks] loop of
    [merge_small_chunks], on the state [(merged_chunks, current_chunk)]. *)
Definition merge_step (self : t) (st : list text * text) (chunk : text)
  : list text * text :=
  let '(merged_chunks, current_chunk) := st in
  if len current_chunk + len chunk <? chunk_size self then
    (merged_chunks,
     current_chunk ++ match current_chunk with
                      | _ :: _ => [space] ++ chunk
                      | [] => chunk
                      end)
  else
    match current_chunk with
    | _ :: _ => (merged_chunks ++ [strip current_chunk], chunk)
    | [] => (merged_chunks, chunk)
    end.

(** [merge_small_chunks]; [min_size] is not read. *)
Definition merge_small_chunks (self : t) (chunks : list text) (min_size : Z)
  : list text :=
  match chunks with
  | [] => chunks
  | _ :: _ =>
      let '(merged_chunks, current_chunk) :=
        fold_left (merge_step self) chunks ([], []) in
      match current_chunk with
      | _ :: _ => merged_chunks ++ [strip current_chunk]
      | [] => merged_chunks
      end
  end.

End TextSplitter.

(** ** Collaborators

    The embedding model and the vector store are not part of the program.
    A call into one of them either returns or fails with an error whose
    [str] is [msg]. *)

Inductive ext (A : Type) :=
  | Returns (a : A)
  | Fails (msg : text).
Arguments Returns {A} a.
Arguments Fails {A} msg.

Definition call {A} (r : ext A) : result A :=
  match r with
  | Returns a => Ok a
  | Fails msg => Raise (External msg)
  end.

(** [SentenceTransformer.encode] on a list of texts, [.tolist()] applied. *)
Class SentenceTransformer (M E : Type) := {
  encode : M -> list text -> ext (list E)
}.

(** The reply of [collection.query]: the three keys that [retrieve] reads.
    Each is [None] or a list with one row per query embedding. *)
Record QueryResult := mkQueryResult {
  qr_documents : option (list (list pyval));
  qr_metadatas : option (list (list pyval));
  qr_distances : option (list (list pyval))
}.

(** One call of [collection.add]. *)
Record Batch (E : Type) := mkBatch {
  batch_documents : list text;
  batch_metadatas : list pydict;
  batch_ids : list text;
  batch_embeddings : list E
}.
Arguments mkBatch {E}.

(** A chromadb collection holding embeddings of type [E]; [C] is the state
    of the store. *)
Class ChromaCollection (C E : Type) := {
  coll_count : C -> ext Z;
  coll_query : C -> list E -> Z -> ext QueryResult;
  coll_add : C -> Batch E -> ext C
}.

(** Decimal rendering of an integer, [str(n)]. *)
Definition str_of_int (n : Z) : text :=
  list_ascii_of_string (NilZero.string_of_int (Z.to_int n)).

(** Truthiness of an optional list: [None] and [[]] are falsy. *)
Definition truthy {A} (l : option (list A)) : bool :=
  match l with
  | Some (_ :: _) => true
  | _ => false
  end.

(** ** [class EmbeddingManager] *)

Module EmbeddingManager.
Section WithModel.
Context {M E : Type} `{SentenceTransformer M E}.

Record t := mk { model : option M }.

(** [embed_text] *)
Definition embed_text (self : t) (s : text) : result E :=
  match model self with
  | None => Raise (RuntimeError py"Embedding model not initialized")
  | Some m =>
      embedding ← call (encode m [s]);
      index embedding 0
  end.

(** [embed_texts] *)
Definition embed_texts (self : t) (texts : list text) : result (list E) :=
  match model self with
  | None => Raise (RuntimeError py"Embedding model not initialized")
  | Some m => call (encode m texts)
  end.

End WithModel.
Arguments t : clear implicits.
End EmbeddingManager.

(** ** [class DocumentRetriever] *)

Module DocumentRetriever.
Section WithStore.
Context {M E C : Type} `{SentenceTransformer M E} `{ChromaCollection C E}.

Record t := mk {
  collection_name : text;
  embedding_manager : EmbeddingManager.t M;
  collection : option C
}.

(** [__init__]: [collection] starts as [None]. *)
Definition init (name : text) (em : EmbeddingManager.t M) : t :=
  {| collection_name := name; embedding_manager := em; collection := None |}.

Definition not_initialized : exn :=
  RuntimeError py"Retriever not initialized. Call initialize() first.".

(** [range(0, n, 100)] *)
Definition batch_starts (n : nat) : list nat :=
  map (fun k => (k * 100)%nat) (seq 0 ((n + 99) / 100)).

(** The [for i in range(0, len(documents), batch_size)] loop of
    [add_documents]; the store keeps the batches added before a failure. *)
Fixpoint add_batches (c : C) (documents : list text)
         (metadata : list pydict) (ids : list text) (embeddings : list E)
         (starts : list nat) : C * result unit :=
  match starts with
  | [] => (c, Ok tt)
  | i :: starts' =>
      let batch :=
        {| batch_documents := take 100 (drop i documents);
           batch_metadatas := take 100 (drop i metadata);
           batch_ids := take 100 (drop i ids);
           batch_embeddings := take 100 (drop i embeddings) |} in
      match coll_add c batch with
      | Returns c' => add_batches c' documents metadata ids embeddings starts'
      | Fails msg => (c, Raise (External msg))
      end
  end.

(** [add_documents]; the handler logs and re-raises. *)
Definition add_documents (self : t) (documents : list text)
           (metadata : list pydict) (ids : option (list text))
  : t * result unit :=
  match collection self with
  | None => (self, Raise not_initialized)
  | Some c =>
      let ids :=
        if truthy ids then default [] ids
        else map (fun i => py"doc_" ++ str_of_int (Z.of_nat i))
                 (seq 0 (length documents)) in
      match EmbeddingManager.embed_texts (embedding_manager self) documents with
      | Raise e => (self, Raise e)
      | Ok embeddings =>
          let '(c', r) :=
            add_batches c documents metadata ids embeddings
                        (batch_starts (length documents)) in
          ({| collection_name := collection_name self;
              embedding_manager := embedding_manager self;
              collection := Some c' |}, r)
      end
  end.

(** The body of [for i in range(len(results['documents'][0]))]. *)
Definition result_doc (results : QueryResult) (row : list pyval) (i : nat)
  : result pydict :=
  content ← index row i;
  metadata ←
    (if truthy (qr_metadatas results)
     then row ← index (default [] (qr_metadatas results)) 0; index row i
     else Ok (VDict ∅));
  distance ←
    (if truthy (qr_distances results)
     then row ← index (default [] (qr_distances results)) 0; index row i
     else Ok VNone);
  Ok ({[ "content" := content;
         "metadata" := metadata;
         "distance" := distance ]} : pydict).

(** The "format results" block of [retrieve]. *)
Definition format_results (results : QueryResult) : result (list pydict) :=
  match qr_documents results with
  | Some (((_ :: _) as row) :: _) =>
      mapM (result_doc results row) (seq 0 (length row))
  | _ => Ok []
  end.

(** The [try] block of [retrieve]. *)
Definition retrieve_try (self : t) (c : C) (query : text) (n_results : Z)
  : result (list pydict) :=
  count ← call (coll_count c);
  if count =? 0 then Ok []
  else
    query_embedding ← EmbeddingManager.embed_text (embedding_manager self) query;
    results ← call (coll_query c [query_embedding] (Z.min n_results count));
    format_results results.

(** [retrieve]: any exception of the [try] block is logged and turned
    into the empty list. *)
Definition retrieve (self : t) (query : text) (n_results : Z)
  : result (list pydict) :=
  match collection self with
  | None => Raise not_initialized
  | Some c =>
      match retrieve_try self c query n_results with
      | Ok documents => Ok documents
      | Raise _ => Ok []
      end
  end.

(** [get_retrieval_stats] *)
Definition get_retrieval_stats (self : t) : pydict :=
  match collection self with
  | None =>
      {[ "document_count" := VInt 0; "status" := VStr py"not_initialized" ]}
  | Some c =>
      match coll_count c with
      | Returns count =>
          {[ "document_count" := VInt count;
             "collection_name" := VStr (collection_name self);
             "status" := VStr py"ready" ]}
      | Fails msg =>
          {[ "document_count" := VInt 0;
             "status" := VStr py"error";
             "error" := VStr msg ]}
      end
  end.

End WithStore.
Arguments t : clear implicits.
End DocumentRetriever.

(** ** [class LLMManager]: building the context *)

(** [str(v)] of a float and of a dict are not needed by any property below
    and are left to the interpreter. *)
Class Builtins := {
  float_str : spec_float -> text;
  dict_str : pydict -> text
}.

Module LLMManager.

(** Two decimal digits of [0 <= n < 100]. *)
Definition two_digits (n : Z) : text :=
  (if n <? 10 then py"0" else []) ++ str_of_int n.

(** The number of hundredths nearest to [m * 2^e], ties to even: the
    correctly rounded decimal that [format] prints. *)
Definition round_hundredths (m : positive) (e : Z) : Z :=
  let num := Z.pos m * 100 in
  if 0 <=? e then num * 2 ^ e
  else
    let den := 2 ^ (- e) in
    let q := num / den in
    let r := num mod den in
    match 2 * r ?= den with
    | Lt => q
    | Gt => q + 1
    | Eq => if Z.even q then q else q + 1
    end.

(** [format(f, '.2f')] for a float. *)
Definition format_float_2f (f : spec_float) : text :=
  match f with
  | S754_nan => py"nan"
  | S754_infinity s => if s then py"-inf" else py"inf"
  | S754_zero s => if s then py"-0.00" else py"0.00"
  | S754_finite s m e =>
      let h := round_hundredths m e in
      (if s then py"-" else [])
        ++ str_of_int (h / 100) ++ py"." ++ two_digits (h mod 100)
  end.

(** [float(n)]: the nearest binary64, [OverflowError] beyond its range. *)
Definition float_of_int (n : Z) : result spec_float :=
  match binary_normalize 53 1024 n 0 false with
  | S754_infinity _ => Raise OverflowError
  | f => Ok f
  end.

(** [format(v, '.2f')] *)
Definition format_2f (v : pyval) : result text :=
  match v with
  | VFloat f => Ok (format_float_2f f)
  | VInt n => f ← float_of_int n; Ok (format_float_2f f)
  | VStr _ => Raise ValueError
  | VNone | VDict _ => Raise TypeError
  end.

Section WithBuiltins.
Context `{Builtins}.

(** [format(v, '')], which is [str(v)]. *)
Definition py_str (v : pyval) : text :=
  match v with
  | VNone => py"None"
  | VInt n => str_of_int n
  | VFloat f => float_str f
  | VStr s => s
  | VDict d => dict_str d
  end.

(** The body of [for i, doc in enumerate(documents, 1)]. *)
Definition context_part (i : Z) (doc : pydict) : result text :=
  content ← getitem doc "content";
  source ← get (default (VDict ∅) (doc !! "metadata")) "source" (VStr py"Unknown");
  let similarity := default (VInt 0) (doc !! "similarity") in
  relevance ← format_2f similarity;
  Ok (py"Document " ++ str_of_int i ++ py" (Relevance: " ++ relevance
        ++ py", Source: " ++ py_str source ++ py"):" ++ ["010"%char]
        ++ py_str content ++ ["010"%char]).

Fixpoint context_parts (i : Z) (documents : list pydict)
  : result (list text) :=
  match documents with
  | [] => Ok []
  | doc :: documents' =>
      part ← context_part i doc;
      parts ← context_parts (i + 1) documents';
      Ok (part :: parts)
  end.

(** [_build_context] *)
Definition _build_context (documents : list pydict) : result text :=
  match documents with
  | [] => Ok py"No relevant information found in the knowledge base."
  | _ =>
      context_parts ← context_parts 1 documents;
      Ok (PyStr.join ["010"%char] context_parts)
  end.

End WithBuiltins.
End LLMManager.

(** ** A small in-memory store and embedding model

    Used to run the retriever on concrete inputs: the embedding of a text is
    its length, the distance between two embeddings is the absolute
    difference, and a query returns the [k] nearest entries, nearest
    first. *)

Module Stub.

Inductive model := Working | Broken.

#[global] Instance stub_encode : SentenceTransformer model Z := {
  encode m texts :=
    match m with
    | Working => Returns (map len texts)
    | Broken => Fails py"model unavailable"
    end
}.

Record entry := mkEntry {
  entry_id : text;
  entry_document : text;
  entry_metadata : pydict;
  entry_embedding : Z
}.

Definition store := list entry.

Definition distance (q : Z) (e : entry) : Z := Z.abs (entry_embedding e - q).

Fixpoint insert_by (q : Z) (e : entry) (l : list entry) : list entry :=
  match l with
  | [] => [e]
  | x :: l' =>
      if distance q e <=? distance q x then e :: l
      else x :: insert_by q e l'
  end.

Definition nearest_first (q : Z) (l : list entry) : list entry :=
  fold_right (insert_by q) [] l.

Definition query (c : store) (es : list Z) (k : Z) : ext QueryResult :=
  match es with
  | [q] =>
      if k <? 1 then Fails py"Number of requested results cannot be negative, or zero."
      else
        let hits := take (Z.to_nat k) (nearest_first q c) in
        Returns
          {| qr_documents := Some [map (fun e => VStr (entry_document e)) hits];
             qr_metadatas := Some [map (fun e => VDict (entry_metadata e)) hits];
             qr_distances :=
               Some [map (fun e => VFloat (binary_normalize 53 1024 (distance q e) 0 false))
                         hits] |}
  | _ => Fails py"expected one query embedding"
  end.

Fixpoint entries (ids docs : list text) (mds : list pydict) (es : list Z)
  : list entry :=
  match ids, docs, mds, es with
  | i :: ids', d :: docs', m :: mds', e :: es' =>
      mkEntry i d m e :: entries ids' docs' mds' es'
  | _, _, _, _ => []
  end.

#[global] Instance stub_collection : ChromaCollection store Z := {
  coll_count c := Returns (len c);
  coll_query := query;
  coll_add c b :=
    Returns (c ++ entries (batch_ids _ b) (batch_documents _ b)
                          (batch_metadatas _ b) (batch_embeddings _ b))
}.

#[global] Instance stub_builtins : Builtins := {
  float_str := fun _ => py"<float>";
  dict_str := fun _ => py"<dict>"
}.

Definition manager : EmbeddingManager.t model :=
  EmbeddingManager.mk (Some Working).

(** A retriever on which [initialize] was never called. *)
Definition fresh : DocumentRetriever.t model store :=
  DocumentRetriever.init py"fitflix_documents" manager.

(** A retriever after [initialize] on an empty store. *)
Definition initialized : DocumentRetriever.t model store :=
  DocumentRetriever.mk py"fitflix_documents" manager (Some []).

(** The documents of [test_retrieve_documents]. *)
Definition loaded : DocumentRetriever.t model store :=
  fst (DocumentRetriever.add_documents initialized
         [py"Cardiovascular exercise strengthens the heart muscle.";
          py"Resistance training builds lean muscle mass effectively.";
          py"Flexibility exercises improve joint range of motion.";
          py"Nutrition plays a crucial role in muscle recovery."]
         [{[ "category" := VStr py"cardio"; "source" := VStr py"cardio.md" ]};
          {[ "category" := VStr py"strength"; "source" := VStr py"strength.md" ]};
          {[ "category" := VStr py"flexibility"; "source" := VStr py"flexibility.md" ]};
          {[ "category" := VStr py"nutrition"; "source" := VStr py"nutrition.md" ]}]
         None).

End Stub.

(** * Properties *)

Import PyStr.

(** ** Short texts *)

(** C3.  A text no longer than the chunk size in force (the argument, or the
    configured size when the argument is [None] or [0]) is returned as the
    single chunk, unchanged; so the result is never the empty list, and the
    empty text yields the list holding the empty text. *)
Theorem split_text_short_unchanged (self : TextSplitter.t) (s : text)
        (chunk_size chunk_overlap : option Z) :
  len s <= int_or chunk_size (TextSplitter.chunk_size self) ->
  TextSplitter.split_text self s chunk_size chunk_overlap = [s]
  /\ TextSplitter.split_text self s chunk_size chunk_overlap <> []
  /\ (s = [] -> TextSplitter.split_text self s chunk_size chunk_overlap = [[]]).
Proof.
  intros Hlen.
  assert (E : TextSplitter.split_text self s chunk_size chunk_overlap = [s]).
  { unfold TextSplitter.split_text.
    destruct (Z.leb_spec (len s) (int_or chunk_size (TextSplitter.chunk_size self)));
      [reflexivity | lia]. }
  rewrite E. split; [reflexivity|]. split; [discriminate|].
  intros ->; reflexivity.
Qed.

Lemma split_text_short_unchanged_witness :
  len (@nil ascii) <= int_or None (TextSplitter.chunk_size (TextSplitter.init default_config))
  /\ TextSplitter.split_text (TextSplitter.init default_config) [] None None = [[]].
Proof.
  split.
  - vm_compute. discriminate.
  - refine (proj1 (split_text_short_unchanged
                     (TextSplitter.init default_config) [] None None _)).
    vm_compute. discriminate.
Defined.

(** ** The retriever *)

(** The record that [retrieve] builds for one hit. *)
Definition retrieved (content metadata distance : pyval) : pydict :=
  {[ "content" := content; "metadata" := metadata; "distance" := distance ]}.

Lemma mapM_result_seq {A} (f : nat -> result A) (g : nat -> A) (n k : nat) :
  (forall i, (k <= i < k + n)%nat -> f i = Ok (g i)) ->
  mapM f (seq k n) = Ok (map g (seq k n)).
Proof.
  revert k. induction n as [|n IH]; intros k Hf; [reflexivity|].
  cbn [seq mapM map]. rewrite Hf by lia. cbn.
  rewrite (IH (S k)) by (intros i Hi; apply Hf; lia).
  reflexivity.
Qed.

Lemma mapM_result_length {A B} (f : A -> result B) (l : list A) (out : list B) :
  mapM f l = Ok out -> length out = length l.
Proof.
  revert out. induction l as [|a l IH]; intros out; cbn.
  - intros [= <-]. reflexivity.
  - destruct (f a) as [b|e]; cbn; [|discriminate].
    destruct (mapM f l) as [bs|e]; cbn; [|discriminate].
    intros [= <-]. cbn. f_equal. apply IH. reflexivity.
Qed.

Lemma mapM_result_elem {A B} (f : A -> result B) (l : list A) (out : list B) (b : B) :
  mapM f l = Ok out -> b ∈ out -> exists a, a ∈ l /\ f a = Ok b.
Proof.
  revert out. induction l as [|a l IH]; intros out; cbn.
  - intros [= <-] Hin. inversion Hin.
  - destruct (f a) as [b'|e] eqn:Efa; cbn; [|discriminate].
    destruct (mapM f l) as [bs|e]; cbn; [|discriminate].
    intros [= <-] Hin. apply elem_of_cons in Hin as [->|Hin].
    + exists a. split; [left|assumption].
    + destruct (IH bs eq_refl Hin) as (a' & Ha' & Hfa').
      exists a'. split; [right; assumption|assumption].
Qed.

Lemma lookup_nth_lt {A} (l : list A) (i : nat) (d : A) :
  (i < length l)%nat -> l !! i = Some (nth i l d).
Proof.
  intros Hi. apply lookup_lt_is_Some_2 in Hi as [x Hx].
  rewrite Hx. f_equal. symmetry. apply nth_lookup_Some. assumption.
Qed.

Ltac len_lia := unfold len in *; cbn [length] in *; lia.

Section RetrieverProperties.
Context {M E C : Type} `{SentenceTransformer M E} `{ChromaCollection C E}.
Import DocumentRetriever.

(** The store returns at most as many hits as were asked for. *)
Definition honours_n_results (c : C) : Prop :=
  forall es k results row rest,
    coll_query c es k = Returns results ->
    qr_documents results = Some (row :: rest) ->
    len row <= k.

Lemma result_doc_aligned results docs mds dists rm rdd i d m x :
  qr_metadatas results = Some (mds :: rm) ->
  qr_distances results = Some (dists :: rdd) ->
  docs !! i = Some d -> mds !! i = Some m -> dists !! i = Some x ->
  result_doc results docs i = Ok (retrieved d m x).
Proof.
  intros Hm Hx Hd Hmi Hxi. unfold result_doc, index.
  rewrite Hd, Hm, Hx. cbn. rewrite Hmi, Hxi. reflexivity.
Qed.

Lemma format_results_aligned results docs mds dists rd rm rdd :
  qr_documents results = Some (docs :: rd) ->
  qr_metadatas results = Some (mds :: rm) ->
  qr_distances results = Some (dists :: rdd) ->
  length mds = length docs -> length dists = length docs ->
  format_results results
  = Ok (map (fun i => retrieved (nth i docs VNone) (nth i mds VNone)
                                (nth i dists VNone))
            (seq 0 (length docs))).
Proof.
  intros Hd Hm Hx Lm Lx. unfold format_results. rewrite Hd.
  destruct docs as [|d0 docs']; [reflexivity|].
  apply mapM_result_seq. intros i Hi.
  apply (result_doc_aligned results _ mds dists rm rdd); try assumption;
    apply lookup_nth_lt; lia.
Qed.

Lemma retrieve_initialized (self : t M C) c query n_results :
  collection self = Some c ->
  retrieve self query n_results
  = match retrieve_try self c query n_results with
    | Ok documents => Ok documents
    | Raise _ => Ok []
    end.
Proof. intros Hc. unfold retrieve. rewrite Hc. reflexivity. Qed.

(** C9.  On a retriever whose collection is [None], [retrieve] and
    [add_documents] raise the [RuntimeError] "Retriever not initialized"
    (and [add_documents] leaves the retriever as it was), while
    [get_retrieval_stats] returns
    [{'document_count': 0, 'status': 'not_initialized'}]. *)
Theorem uninitialized_retriever (self : t M C) (query : text) (n_results : Z)
        (documents : list text) (metadata : list pydict)
        (ids : option (list text)) :
  collection self = None ->
  retrieve self query n_results
  = Raise (RuntimeError py"Retriever not initialized. Call initialize() first.")
  /\ add_documents self documents metadata ids
     = (self, Raise (RuntimeError py"Retriever not initialized. Call initialize() first."))
  /\ get_retrieval_stats self
     = {[ "document_count" := VInt 0; "status" := VStr py"not_initialized" ]}.
Proof.
  intros Hc. unfold retrieve, add_documents, get_retrieval_stats.
  rewrite Hc. repeat split.
Qed.

(** C5.  On an initialized retriever [retrieve] always returns a list: the
    empty list when the store holds no record, when counting fails, when
    the query embedding fails, when the store query fails, and in general
    whenever anything in the [try] block raises. *)
Theorem retrieve_degrades_to_empty (self : t M C) (c : C) (query : text)
        (n_results : Z) :
  collection self = Some c ->
  (exists documents, retrieve self query n_results = Ok documents)
  /\ (coll_count c = Returns 0 -> retrieve self query n_results = Ok [])
  /\ (forall msg, coll_count c = Fails msg ->
        retrieve self query n_results = Ok [])
  /\ (forall count e,
        coll_count c = Returns count ->
        EmbeddingManager.embed_text (embedding_manager self) query = Raise e ->
        retrieve self query n_results = Ok [])
  /\ (forall count query_embedding msg,
        coll_count c = Returns count ->
        EmbeddingManager.embed_text (embedding_manager self) query
        = Ok query_embedding ->
        coll_query c [query_embedding] (Z.min n_results count) = Fails msg ->
        retrieve self query n_results = Ok [])
  /\ (forall e, retrieve_try self c query n_results = Raise e ->
        retrieve self query n_results = Ok []).
Proof.
  intros Hc. rewrite (retrieve_initialized self c) by assumption.
  split; [destruct (retrieve_try self c query n_results); eauto|].
  unfold retrieve_try.
  split; [intros ->; reflexivity|].
  split; [intros msg ->; reflexivity|].
  split; [|split].
  - intros count e -> He. cbn. destruct (count =? 0); [reflexivity|].
    rewrite He. reflexivity.
  - intros count emb msg -> He Hq. cbn. destruct (count =? 0); [reflexivity|].
    rewrite He. cbn. rewrite Hq. reflexivity.
  - intros e ->. reflexivity.
Qed.

(** C4.  On an initialized retriever over a store that holds [count]
    records and returns at most as many hits as it is asked for,
    [retrieve query n_results] returns a list of at most
    [min n_results count] records; when the reply's rows are aligned, the
    list has one record per returned document, in the store's order, the
    record at position [i] holding the content, metadata and distance the
    store returned at position [i] (so the distances come out in the order
    the store ranked them). *)
Theorem retrieve_zips_store_reply (self : t M C) (c : C) (query : text)
        (n_results count : Z) :
  collection self = Some c ->
  coll_count c = Returns count ->
  0 <= count -> 0 <= n_results ->
  honours_n_results c ->
  exists documents,
    retrieve self query n_results = Ok documents
    /\ len documents <= Z.min n_results count
    /\ (forall query_embedding results docs mds dists rd rm rdd,
          count <> 0 ->
          EmbeddingManager.embed_text (embedding_manager self) query
          = Ok query_embedding ->
          coll_query c [query_embedding] (Z.min n_results count)
          = Returns results ->
          qr_documents results = Some (docs :: rd) ->
          qr_metadatas results = Some (mds :: rm) ->
          qr_distances results = Some (dists :: rdd) ->
          length mds = length docs -> length dists = length docs ->
          length documents = length docs
          /\ (forall i d m x,
                docs !! i = Some d -> mds !! i = Some m ->
                dists !! i = Some x ->
                documents !! i = Some (retrieved d m x))
          /\ (fun doc : pydict => doc !! "distance") <$> documents
             = Some <$> dists).
Proof.
  intros Hc Hcount Hc0 Hn0 Hstore.
  rewrite (retrieve_initialized self c) by assumption.
  unfold retrieve_try. rewrite Hcount. cbn.
  destruct (Z.eqb_spec count 0) as [->|Hne].
  { exists []. split; [reflexivity|]. split; [len_lia|]. congruence. }
  destruct (EmbeddingManager.embed_text (embedding_manager self) query)
    as [emb|e] eqn:Eemb; cbn.
  2:{ exists []. split; [reflexivity|]. split; [len_lia|]. congruence. }
  destruct (coll_query c [emb] (Z.min n_results count))
    as [results|msg] eqn:Eq; cbn.
  2:{ exists []. split; [reflexivity|]. split; [len_lia|].
      intros ? ? ? ? ? ? ? ? _ [= <-] Hq. rewrite Eq in Hq. discriminate. }
  destruct (format_results results) as [documents|e] eqn:Ef.
  2:{ exists []. split; [reflexivity|]. split; [len_lia|].
      intros ? r docs mds dists rd rm rdd _ [= <-] Hq Hd Hm Hx Lm Lx.
      rewrite Eq in Hq. injection Hq as <-.
      rewrite (format_results_aligned _ _ _ _ _ _ _ Hd Hm Hx Lm Lx) in Ef.
      discriminate. }
  exists documents. split; [reflexivity|]. split.
  - unfold format_results in Ef.
    destruct (qr_documents results) as [[|[|d0 row] rest]|] eqn:Ed;
      try (injection Ef as <-; len_lia).
    apply mapM_result_length in Ef. rewrite length_seq in Ef.
    unfold len. rewrite Ef. apply (Hstore _ _ _ _ _ Eq Ed).
  - intros ? r docs mds dists rd rm rdd _ [= <-] Hq Hd Hm Hx Lm Lx.
    rewrite Eq in Hq. injection Hq as <-.
    rewrite (format_results_aligned _ _ _ _ _ _ _ Hd Hm Hx Lm Lx) in Ef.
    injection Ef as <-.
    split; [rewrite length_map, length_seq; reflexivity|]. split.
    + intros i d m x Hdi Hmi Hxi.
      rewrite list_lookup_fmap, lookup_seq_lt by (apply lookup_lt_Some in Hdi; lia).
      cbn. f_equal.
      rewrite (nth_lookup_Some _ _ _ _ Hdi), (nth_lookup_Some _ _ _ _ Hmi),
        (nth_lookup_Some _ _ _ _ Hxi). reflexivity.
    + apply list_eq. intros i.
      rewrite !list_lookup_fmap.
      destruct (dists !! i) as [x|] eqn:Hxi; cbn.
      * rewrite lookup_seq_lt by (apply lookup_lt_Some in Hxi; lia). cbn.
        rewrite (nth_lookup_Some _ _ _ _ Hxi). reflexivity.
      * rewrite lookup_seq_ge by (apply lookup_ge_None in Hxi; lia).
        reflexivity.
Qed.

End RetrieverProperties.

(** The in-memory store never returns more hits than asked for. *)
Lemma stub_honours_n_results (c : Stub.store) : honours_n_results c.
Proof.
  intros es k results row rest Hq Hd. cbn in Hq. unfold Stub.query in Hq.
  destruct es as [|q [|? ?]]; try discriminate.
  destruct (Z.ltb_spec k 1); [discriminate|].
  injection Hq as <-. cbn in Hd. injection Hd as <- <-.
  unfold len. rewrite length_map, length_take. lia.
Qed.

Definition stub_loaded_store : Stub.store :=
  default [] (DocumentRetriever.collection Stub.loaded).

Lemma uninitialized_retriever_witness :
  DocumentRetriever.collection Stub.fresh = None
  /\ DocumentRetriever.retrieve Stub.fresh py"heart exercise" 5
     = Raise (RuntimeError py"Retriever not initialized. Call initialize() first.").
Proof.
  split; [reflexivity|].
  exact (proj1 (uninitialized_retriever Stub.fresh py"heart exercise" 5
                  [] [] None eq_refl)).
Defined.

Lemma retrieve_degrades_to_empty_witness :
  (DocumentRetriever.collection Stub.initialized = Some []
   /\ coll_count ([] : Stub.store) = Returns 0
   /\ DocumentRetriever.retrieve Stub.initialized py"heart exercise" 5 = Ok [])
  /\ (DocumentRetriever.collection Stub.loaded = Some stub_loaded_store
      /\ coll_query stub_loaded_store [len py"heart exercise"] (Z.min 0 4)
         = Fails py"Number of requested results cannot be negative, or zero."
      /\ DocumentRetriever.retrieve Stub.loaded py"heart exercise" 0 = Ok []).
Proof.
  split.
  - split; [reflexivity|]. split; [reflexivity|].
    exact (proj1 (proj2 (retrieve_degrades_to_empty Stub.initialized []
                           py"heart exercise" 5 eq_refl)) eq_refl).
  - split; [vm_compute; reflexivity|]. split; [vm_compute; reflexivity|].
    refine (proj1 (proj2 (proj2 (proj2 (proj2
              (retrieve_degrades_to_empty Stub.loaded stub_loaded_store
                 py"heart exercise" 0 _)))))
              4 (len py"heart exercise") _ _ _ _);
      vm_compute; reflexivity.
Defined.

Lemma retrieve_zips_store_reply_witness :
  DocumentRetriever.collection Stub.loaded = Some stub_loaded_store
  /\ coll_count stub_loaded_store = Returns 4
  /\ honours_n_results stub_loaded_store
  /\ exists documents,
       DocumentRetriever.retrieve Stub.loaded py"heart exercise" 2 = Ok documents
       /\ len documents <= Z.min 2 4.
Proof.
  assert (Hc : DocumentRetriever.collection Stub.loaded = Some stub_loaded_store)
    by (vm_compute; reflexivity).
  assert (Hn : coll_count stub_loaded_store = Returns 4)
    by (vm_compute; reflexivity).
  split; [exact Hc|]. split; [exact Hn|].
  split; [apply stub_honours_n_results|].
  destruct (retrieve_zips_store_reply Stub.loaded stub_loaded_store
              py"heart exercise" 2 4 Hc Hn ltac:(lia) ltac:(lia)
              (stub_honours_n_results _)) as (documents & Hr & Hl & _).
  exists documents. split; assumption.
Defined.

(** ** The context builder *)

Definition newline : ascii := "010"%char.

(** The block of the context that describes one document. *)
Definition context_block (i : Z) (relevance source content : text) : text :=
  py"Document " ++ str_of_int i ++ py" (Relevance: " ++ relevance
    ++ py", Source: " ++ source ++ py"):" ++ [newline]
    ++ content ++ [newline].

(** A result record with a string content, a string source in its metadata
    and a float similarity. *)
Definition describes (doc : pydict) (row : text * text * spec_float) : Prop :=
  let '(content, source, similarity) := row in
  doc !! "content" = Some (VStr content)
  /\ (exists md, doc !! "metadata" = Some (VDict md)
                 /\ md !! "source" = Some (VStr source))
  /\ doc !! "similarity" = Some (VFloat similarity).

Definition render_row (i : Z) (row : text * text * spec_float) : text :=
  let '(content, source, similarity) := row in
  context_block i (LLMManager.format_float_2f similarity) source content.

Lemma two_digits_length (n : Z) :
  0 <= n < 100 -> length (LLMManager.two_digits n) = 2%nat.
Proof.
  intros Hn.
  assert (Hall : forallb (fun k => Nat.eqb (length (LLMManager.two_digits (Z.of_nat k))) 2)
                         (seq 0 100) = true) by (vm_compute; reflexivity).
  rewrite forallb_forall in Hall.
  specialize (Hall (Z.to_nat n)). rewrite Z2Nat.id in Hall by lia.
  apply Nat.eqb_eq, Hall, in_seq. lia.
Qed.

Lemma round_hundredths_nearest (m : positive) (e : Z) :
  (0 <= e -> LLMManager.round_hundredths m e = Z.pos m * 100 * 2 ^ e)
  /\ (e < 0 ->
      Z.abs (2 * (Z.pos m * 100) - 2 * LLMManager.round_hundredths m e * 2 ^ (- e))
      <= 2 ^ (- e)).
Proof.
  unfold LLMManager.round_hundredths. split; intros He.
  - destruct (Z.leb_spec 0 e); [reflexivity | lia].
  - destruct (Z.leb_spec 0 e); [lia|].
    assert (Hden : 0 < 2 ^ (- e)) by (apply Z.pow_pos_nonneg; lia).
    set (den := 2 ^ (- e)) in *. set (num := Z.pos m * 100).
    pose proof (Z.div_mod num den ltac:(lia)) as Hdm.
    pose proof (Z.mod_pos_bound num den Hden) as Hr.
    set (q := num / den) in *. set (r := num mod den) in *.
    destruct (Z.compare_spec (2 * r) den); [destruct (Z.even q)| |]; nia.
Qed.

Section ContextProperties.
Context `{Builtins}.
Import LLMManager.

Lemma context_part_describes (i : Z) (doc : pydict) row :
  describes doc row -> context_part i doc = Ok (render_row i row).
Proof.
  destruct row as [[content source] similarity].
  intros (Hc & (md & Hm & Hs) & Hsim).
  unfold context_part, getitem. rewrite Hc, Hm, Hsim. cbn. rewrite Hs.
  reflexivity.
Qed.

Lemma context_parts_describe (docs : list pydict) rows :
  Forall2 describes docs rows ->
  forall i, context_parts i docs
            = Ok (imap (fun j row => render_row (i + Z.of_nat j) row) rows).
Proof.
  induction 1 as [|doc row docs rows Hd _ IH]; intros i; [reflexivity|].
  cbn [context_parts]. rewrite (context_part_describes i doc row Hd). cbn.
  rewrite (IH (i + 1)). cbn. rewrite Z.add_0_r. do 2 f_equal.
  apply imap_ext. intros j r _. cbn. f_equal. lia.
Qed.

(** C6.  [_build_context] of the empty list is the fixed sentence.  Of a
    non-empty list of result records it is the blocks
    "Document i (Relevance: s, Source: src):", newline, content, newline,
    for i = 1, 2, ... in the order of the list, joined by a newline (so a
    blank line separates two blocks); s is the similarity in fixed point
    with two decimals, that is the nearest number of hundredths (ties to
    even) printed as integer part, a dot and two digits. *)
Theorem build_context_renders :
  _build_context [] = Ok py"No relevant information found in the knowledge base."
  /\ (forall docs rows,
        docs <> [] ->
        Forall2 describes docs rows ->
        _build_context docs
        = Ok (join [newline]
                (imap (fun j row => render_row (Z.of_nat j + 1) row) rows)))
  /\ (forall s m e,
        let h := round_hundredths m e in
        format_float_2f (S754_finite s m e)
        = (if s then py"-" else []) ++ str_of_int (h / 100) ++ py"."
            ++ two_digits (h mod 100)
        /\ length (two_digits (h mod 100)) = 2%nat
        /\ (0 <= e -> h = Z.pos m * 100 * 2 ^ e)
        /\ (e < 0 ->
            Z.abs (2 * (Z.pos m * 100) - 2 * h * 2 ^ (- e)) <= 2 ^ (- e))).
Proof.
  split; [reflexivity|]. split.
  - intros docs rows Hne Hd. unfold _build_context.
    destruct docs as [|doc docs']; [congruence|].
    rewrite (context_parts_describe _ _ Hd 1). cbn. do 2 f_equal.
    apply imap_ext. intros j r _. cbn. f_equal. lia.
  - intros s m e h. split; [reflexivity|]. split.
    + apply two_digits_length. apply Z.mod_pos_bound. lia.
    + apply round_hundredths_nearest.
Qed.

End ContextProperties.

(** The floats [n / d] of the test suite, e.g. [0.85] as [85 / 100]. *)
Definition float_ratio (n d : Z) : spec_float :=
  SFdiv 53 1024 (binary_normalize 53 1024 n 0 false)
        (binary_normalize 53 1024 d 0 false).

(** The documents of [test_context_building]. *)
Definition test_documents : list pydict :=
  [ {[ "content" := VStr py"Cardio exercises improve heart health.";
       "metadata" := VDict {[ "source" := VStr py"cardio.md";
                              "category" := VStr py"cardio" ]};
       "similarity" := VFloat (float_ratio 85 100) ]};
    {[ "content" := VStr py"Strength training builds muscle mass.";
       "metadata" := VDict {[ "source" := VStr py"strength.md";
                              "category" := VStr py"strength" ]};
       "similarity" := VFloat (float_ratio 78 100) ]} ].

Definition test_rows : list (text * text * spec_float) :=
  [ (py"Cardio exercises improve heart health.", py"cardio.md", float_ratio 85 100);
    (py"Strength training builds muscle mass.", py"strength.md", float_ratio 78 100) ].

Lemma build_context_renders_witness :
  test_documents <> []
  /\ Forall2 describes test_documents test_rows
  /\ LLMManager._build_context test_documents
     = Ok py"Document 1 (Relevance: 0.85, Source: cardio.md):
Cardio exercises improve heart health.

Document 2 (Relevance: 0.78, Source: strength.md):
Strength training builds muscle mass.
".
Proof.
  assert (Hne : test_documents <> []) by discriminate.
  assert (Hd : Forall2 describes test_documents test_rows).
  { repeat constructor; eexists; split; vm_compute; reflexivity. }
  split; [exact Hne|]. split; [exact Hd|].
  rewrite (proj1 (proj2 build_context_renders) test_documents test_rows Hne Hd).
  vm_compute. reflexivity.
Defined.

(** ** Retrieved records in the context builder *)

Section RetrievedRelevance.
Context {M E C : Type} `{SentenceTransformer M E} `{ChromaCollection C E}
        `{Builtins}.
Import DocumentRetriever LLMManager.

Lemma result_doc_shape results row i doc :
  result_doc results row i = Ok doc ->
  exists content metadata distance, doc = retrieved content metadata distance.
Proof.
  unfold result_doc. intros Hdoc.
  destruct (index row i) as [content|]; [cbn in Hdoc|discriminate].
  match type of Hdoc with
  | context [mbind _ ?r] => destruct r as [metadata|]; [cbn in Hdoc|discriminate]
  end.
  match type of Hdoc with
  | context [mbind _ ?r] => destruct r as [distance|]; [cbn in Hdoc|discriminate]
  end.
  injection Hdoc as <-. eauto.
Qed.

Lemma retrieve_records (self : t M C) query n_results documents doc :
  retrieve self query n_results = Ok documents ->
  doc ∈ documents ->
  exists content metadata distance, doc = retrieved content metadata distance.
Proof.
  unfold retrieve. destruct (collection self) as [c|]; [|discriminate].
  destruct (retrieve_try self c query n_results) as [ds|e] eqn:Etry.
  2:{ intros [= <-] Hin. inversion Hin. }
  intros [= <-] Hin. unfold retrieve_try in Etry.
  destruct (call (coll_count c)) as [count|]; [cbn in Etry|discriminate].
  destruct (count =? 0).
  { injection Etry as <-. inversion Hin. }
  destruct (EmbeddingManager.embed_text (embedding_manager self) query)
    as [emb|]; [cbn in Etry|discriminate].
  destruct (call (coll_query c [emb] (Z.min n_results count)))
    as [results|]; [cbn in Etry|discriminate].
  unfold format_results in Etry.
  destruct (qr_documents results) as [[|[|d0 row] rest]|];
    try (injection Etry as <-; inversion Hin).
  destruct (mapM_result_elem _ _ _ _ Etry Hin) as (i & _ & Hi).
  eapply result_doc_shape, Hi.
Qed.

(** The record of one retrieved row [(content, metadata, distance)]. *)
Definition retrieved_of (row : pyval * pyval * pyval) : pydict :=
  let '(content, metadata, distance) := row in
  retrieved content metadata distance.

(** [metadata.get('source', 'Unknown')] of a retrieved row returns
    [source]. *)
Definition source_read (row : pyval * pyval * pyval) (source : pyval) : Prop :=
  let '(_, metadata, _) := row in
  get metadata "source" (VStr py"Unknown") = Ok source.

(** The block of retrieved row number [j] (from 0): its relevance reads
    "0.00" and its distance does not occur. *)
Definition zero_block (j : nat) (rs : pyval * pyval * pyval * pyval) : text :=
  let '((content, _, _), source) := rs in
  context_block (Z.of_nat j + 1) py"0.00" (py_str source) (py_str content).

Lemma context_part_retrieved (i : Z) (content metadata distance : pyval) :
  context_part i (retrieved content metadata distance)
  = (source ← get metadata "source" (VStr py"Unknown");
     Ok (context_block i py"0.00" (py_str source) (py_str content))).
Proof.
  unfold context_part, getitem.
  change (retrieved content metadata distance !! "content") with (Some content).
  change (retrieved content metadata distance !! "metadata") with (Some metadata).
  change (retrieved content metadata distance !! "similarity") with (@None pyval).
  cbn. destruct (get metadata "source" (VStr py"Unknown")); reflexivity.
Qed.

Lemma context_parts_retrieved (rows : list (pyval * pyval * pyval)) :
  forall (k : nat) (parts : list text),
    context_parts (Z.of_nat k + 1) (map retrieved_of rows) = Ok parts
    <-> exists sources,
          Forall2 source_read rows sources
          /\ parts = imap (fun j rs => zero_block (k + j) rs) (zip rows sources).
Proof.
  induction rows as [|[[content metadata] distance] rows IH]; intros k parts.
  - cbn. split.
    + intros [= <-]. exists []. split; [constructor|reflexivity].
    + intros (sources & Hs & ->). inversion Hs. reflexivity.
  - cbn [map retrieved_of context_parts].
    rewrite context_part_retrieved.
    replace (Z.of_nat k + 1 + 1) with (Z.of_nat (S k) + 1) by lia.
    split.
    + destruct (get metadata "source" (VStr py"Unknown")) as [source|e] eqn:Eg;
        [cbn|discriminate].
      destruct (context_parts (Z.of_nat (S k) + 1) (map retrieved_of rows))
        as [parts'|e] eqn:Ep; [cbn|discriminate].
      intros [= <-].
      apply IH in Ep as (sources & Hs & ->).
      exists (source :: sources). split; [constructor; assumption|].
      cbn. rewrite Nat.add_0_r. f_equal.
      apply imap_ext. intros j rs _. cbn. f_equal. lia.
    + intros (sources & Hs & ->).
      inversion Hs as [|row source rows' sources' Hsrc Hrest]; subst.
      unfold source_read in Hsrc. rewrite Hsrc. cbn.
      rewrite (proj2 (IH (S k) _) (ex_intro _ sources' (conj Hrest eq_refl))).
      cbn. rewrite Nat.add_0_r. do 2 f_equal.
      apply imap_ext. intros j rs _. cbn. f_equal. lia.
Qed.

Lemma retrieve_rows (self : t M C) query n_results documents :
  retrieve self query n_results = Ok documents ->
  exists rows, documents = map retrieved_of rows.
Proof.
  intros Hr.
  assert (Hall : forall doc, doc ∈ documents ->
            exists content metadata distance,
              doc = retrieved content metadata distance)
    by (intros doc; apply (retrieve_records _ _ _ _ _ Hr)).
  clear Hr. induction documents as [|doc documents IH].
  - exists []. reflexivity.
  - destruct (Hall doc ltac:(left)) as (content & metadata & distance & ->).
    destruct IH as [rows ->]; [intros d Hd; apply Hall; right; exact Hd|].
    exists ((content, metadata, distance) :: rows). reflexivity.
Qed.

(** C10.  The records returned by [retrieve] are built from rows
    (content, metadata, distance): each has the keys [content], [metadata]
    and [distance] and no key [similarity].  [_build_context] therefore
    reads the default [0] for every one of them: on a non-empty result it
    returns a context exactly when every metadata has a [get] (is a
    mapping), and that context is the blocks of the records in order,
    joined by a newline, each with the relevance "0.00", whatever distance
    the store returned. *)
Theorem retrieved_relevance_is_zero (self : t M C) (query : text)
        (n_results : Z) (documents : list pydict) :
  retrieve self query n_results = Ok documents ->
  exists rows : list (pyval * pyval * pyval),
    documents = map retrieved_of rows
    /\ Forall (fun doc =>
                 doc !! "similarity" = None
                 /\ format_2f (default (VInt 0) (doc !! "similarity"))
                    = Ok py"0.00") documents
    /\ (forall j content metadata distance,
          rows !! j = Some (content, metadata, distance) ->
          exists doc, documents !! j = Some doc
                      /\ doc !! "distance" = Some distance
                      /\ forall i,
                           context_part i doc
                           = (source ← get metadata "source" (VStr py"Unknown");
                              Ok (context_block i py"0.00" (py_str source)
                                                (py_str content))))
    /\ (forall context,
          documents <> [] ->
          _build_context documents = Ok context
          <-> exists sources,
                Forall2 source_read rows sources
                /\ context = join [newline] (imap zero_block (zip rows sources))).
Proof.
  intros Hr. destruct (retrieve_rows _ _ _ _ Hr) as [rows ->].
  exists rows. split; [reflexivity|]. split; [|split].
  - apply Forall_forall. intros doc (row & -> & _)%list_elem_of_fmap.
    destruct row as [[content metadata] distance]. split; reflexivity.
  - intros j content metadata distance Hj.
    exists (retrieved content metadata distance). split.
    + rewrite list_lookup_fmap, Hj. reflexivity.
    + split; [reflexivity|]. intros i. apply context_part_retrieved.
  - intros context Hne. unfold _build_context.
    destruct (map retrieved_of rows) as [|d ds] eqn:Em; [congruence|].
    rewrite <- Em. clear Hr Em Hne d ds.
    assert (Hparts : forall parts,
               context_parts 1 (map retrieved_of rows) = Ok parts
               <-> exists sources,
                     Forall2 source_read rows sources
                     /\ parts = imap zero_block (zip rows sources))
      by (intros parts; exact (context_parts_retrieved rows 0 parts)).
    split.
    + destruct (context_parts 1 (map retrieved_of rows)) as [parts|e] eqn:Ep;
        [cbn|discriminate].
      intros [= <-]. destruct (proj1 (Hparts parts) eq_refl) as (sources & Hs & ->).
      exists sources. split; [exact Hs|reflexivity].
    + intros (sources & Hs & ->).
      rewrite (proj2 (Hparts _) (ex_intro _ sources (conj Hs eq_refl))).
      reflexivity.
Qed.

End RetrievedRelevance.

Lemma retrieved_relevance_is_zero_witness :
  exists documents context,
    DocumentRetriever.retrieve Stub.loaded py"heart exercise" 2 = Ok documents
    /\ length documents = 2%nat
    /\ LLMManager._build_context documents = Ok context
    /\ exists rows sources,
         documents = map retrieved_of rows
         /\ context = join [newline] (imap zero_block (zip rows sources)).
Proof.
  destruct (DocumentRetriever.retrieve Stub.loaded py"heart exercise" 2)
    as [documents|] eqn:Er; [|discriminate].
  destruct (retrieved_relevance_is_zero Stub.loaded py"heart exercise" 2
              documents Er) as (rows & Hrows & _ & _ & Hctx).
  assert (Hlen : length documents = 2%nat)
    by (vm_compute in Er; injection Er as <-; reflexivity).
  destruct (LLMManager._build_context documents) as [context|] eqn:Eb;
    [|vm_compute in Er; injection Er as <-; vm_compute in Eb; discriminate].
  exists documents, context.
  split; [reflexivity|]. split; [exact Hlen|]. split; [exact Eb|].
  assert (Hne : documents <> []) by (intros E; rewrite E in Hlen; discriminate).
  destruct (proj1 (Hctx context Hne) eq_refl)
    as (sources & _ & Hc).
  exists rows, sources. split; assumption.
Defined.

(** ** The splitter on concrete texts *)

Lemma suffix_is_drop {A} (l1 l2 : list A) :
  l1 `suffix_of` l2 -> exists n, (n <= length l2)%nat /\ l1 = drop n l2.
Proof.
  intros [k ->]. exists (length k). split.
  - rewrite length_app. lia.
  - rewrite drop_app_length. reflexivity.
Qed.

(** A sentence of 904 characters and one of 854, words of five characters. *)
Definition long_text : text :=
  (concat (repeat py"aaaa " 180) ++ py"end.") ++ py" "
    ++ (concat (repeat py"bbbb " 170) ++ py"end.").

(** C1.  The overlap that starts a new chunk is not counted against the
    chunk size.  With [chunk_size = 10] and [chunk_overlap = 5] the text
    "aa bb cc. dddddddd." has two sentences of ten characters (trailing space
    included) and no word longer than nine, and its second chunk has 13
    characters.  With the configured sizes (1000 and 200), two sentences of
    905 and 855 characters give a second chunk of 1049 characters. *)
Theorem split_text_chunk_exceeds_chunk_size :
  let self := TextSplitter.init default_config in
  let s := py"aa bb cc. dddddddd." in
  (len s > 10
   /\ map len (TextSplitter._split_by_sentences s) = [10; 10]
   /\ Forall (fun word => len word <= 9) (split s)
   /\ TextSplitter.split_text self s (Some 10) (Some 5)
      = [py"aa bb cc."; py"cc. dddddddd."]
   /\ len py"cc. dddddddd." = 13)
  /\ (len long_text > 1000
      /\ map len (TextSplitter._split_by_sentences long_text) = [905; 855]
      /\ Forall (fun word => len word <= 5) (split long_text)
      /\ map len (TextSplitter.split_text self long_text None None) = [904; 1049]).
Proof.
  cbv zeta. split.
  - split; [reflexivity|]. split; [vm_compute; reflexivity|].
    split; [|split; vm_compute; reflexivity].
    repeat constructor; vm_compute; discriminate.
  - split; [reflexivity|]. split; [vm_compute; reflexivity|].
    split; [|vm_compute; reflexivity].
    apply Forall_forall. intros word Hin.
    assert (Hall : forallb (fun w => len w <=? 5) (split long_text) = true)
      by (vm_compute; reflexivity).
    rewrite forallb_forall in Hall. apply Z.leb_le, Hall.
    apply list_elem_of_In. assumption.
Qed.

(** C2.  The last word-chunk of an over-long sentence is carried into the
    buffer without a trailing space, so the next sentence is glued to it.
    With [chunk_size = 10] and [chunk_overlap = 1] the text
    "aaaa bbbb cccc. dd." comes out as "aaaa bbbb" and "cccc.dd.": the four
    words of the text are three words in the chunks, and no way of dropping a
    prefix from each chunk gives the words of the text back. *)
Theorem split_text_glues_sentences :
  let self := TextSplitter.init default_config in
  let s := py"aaaa bbbb cccc. dd." in
  TextSplitter.split_text self s (Some 10) (Some 1)
  = [py"aaaa bbbb"; py"cccc.dd."]
  /\ TextSplitter._split_by_sentences s = [py"aaaa bbbb cccc. "; py"dd. "]
  /\ split s = [py"aaaa"; py"bbbb"; py"cccc."; py"dd."]
  /\ concat (map split (TextSplitter.split_text self s (Some 10) (Some 1)))
     = [py"aaaa"; py"bbbb"; py"cccc.dd."]
  /\ (forall f1 f2,
        f1 `suffix_of` py"aaaa bbbb" -> f2 `suffix_of` py"cccc.dd." ->
        split f1 ++ split f2 <> split s).
Proof.
  cbv zeta. repeat (split; [vm_compute; reflexivity|]).
  intros f1 f2 H1 H2.
  apply suffix_is_drop in H1 as (n1 & Hn1 & ->).
  apply suffix_is_drop in H2 as (n2 & Hn2 & ->).
  assert (Hall :
    forallb (fun n1 =>
      forallb (fun n2 =>
        negb (bool_decide (split (drop n1 py"aaaa bbbb")
                           ++ split (drop n2 py"cccc.dd.")
                           = split py"aaaa bbbb cccc. dd.")))
        (seq 0 9)) (seq 0 10) = true) by (vm_compute; reflexivity).
  rewrite forallb_forall in Hall.
  specialize (Hall n1 ltac:(apply in_seq; cbn in Hn1; lia)).
  rewrite forallb_forall in Hall.
  specialize (Hall n2 ltac:(apply in_seq; cbn in Hn2; lia)).
  apply negb_true_iff, bool_decide_eq_false in Hall. exact Hall.
Qed.

(** A well-formed document, a document without content, and a document
    whose content and metadata are [None]. *)
Definition good_document : pydict :=
  {[ "content" := VStr py"Hello world. Zebra runs.";
     "metadata" := VDict {[ "source" := VStr py"a.md";
                            "category" := VStr py"general" ]} ]}.

Definition document_without_content : pydict :=
  {[ "metadata" := VDict {[ "source" := VStr py"b.md" ]} ]}.

Definition document_of_nones : pydict :=
  {[ "content" := VNone; "metadata" := VNone ]}.

(** C7.  A document without content is skipped and the batch goes on.  A
    document whose content and metadata are [None] makes [split_text] raise
    [TypeError]; the handler then evaluates [doc.get('metadata', {}).get] on
    [None] for its log line, and the [AttributeError] leaves
    [split_documents]: the documents after it are not processed. *)
Theorem split_documents_handler_raises :
  let self := TextSplitter.init default_config in
  (exists chunked, TextSplitter.split_documents self [good_document] = Ok [chunked])
  /\ TextSplitter.split_documents self [document_without_content; good_document]
     = TextSplitter.split_documents self [good_document]
  /\ TextSplitter.split_text_value self VNone = Raise TypeError
  /\ TextSplitter.split_documents self [document_of_nones; good_document]
     = Raise AttributeError.
Proof.
  cbv zeta. split; [eexists; vm_compute; reflexivity|].
  repeat split; vm_compute; reflexivity.
Qed.


(** ** Whitespace and stripping *)

(** [blank s]: every code point of [s] is whitespace. *)
Definition blank (s : text) : bool := forallb isspace s.

Lemma blank_app (a b : text) : blank (a ++ b) = blank a && blank b.
Proof. apply forallb_app. Qed.

Lemma blank_rev (s : text) : blank (rev s) = blank s.
Proof.
  unfold blank. induction s as [|c s IH]; [reflexivity|].
  cbn. rewrite forallb_app, IH. cbn. rewrite andb_true_r. apply andb_comm.
Qed.

Lemma lstrip_blank (a b : text) : blank a = true -> lstrip (a ++ b) = lstrip b.
Proof.
  induction a as [|c a IH]; [reflexivity|]. cbn.
  intros [Hc Ha]%andb_true_iff. rewrite Hc. auto.
Qed.

Lemma lstrip_nonblank (a b : text) :
  blank a = false -> lstrip (a ++ b) = lstrip a ++ b.
Proof.
  induction a as [|c a IH]; [discriminate|]. cbn.
  destruct (isspace c); cbn; auto.
Qed.

Lemma lstrip_nil (s : text) : lstrip s = [] <-> blank s = true.
Proof.
  induction s as [|c s IH]; cbn; [tauto|].
  destruct (isspace c); cbn; [exact IH|]. split; discriminate.
Qed.

Lemma lstrip_suffix (s : text) : lstrip s `suffix_of` s.
Proof.
  induction s as [|c s IH]; cbn; [reflexivity|].
  destruct (isspace c); [|reflexivity].
  apply suffix_cons_r. exact IH.
Qed.

Lemma blank_lstrip (s : text) : blank s = false -> blank (lstrip s) = false.
Proof.
  induction s as [|c s IH]; cbn; [discriminate|].
  destruct (isspace c) eqn:Ec; cbn; [exact IH|]. rewrite Ec. reflexivity.
Qed.

Lemma rstrip_blank (a b : text) : blank b = true -> rstrip (a ++ b) = rstrip a.
Proof.
  intros Hb. unfold rstrip. rewrite rev_app_distr.
  rewrite lstrip_blank by (rewrite blank_rev; exact Hb). reflexivity.
Qed.

Lemma rstrip_nonblank (a b : text) :
  blank b = false -> rstrip (a ++ b) = a ++ rstrip b.
Proof.
  intros Hb. unfold rstrip. rewrite rev_app_distr.
  rewrite lstrip_nonblank by (rewrite blank_rev; exact Hb).
  rewrite rev_app_distr, rev_involutive. reflexivity.
Qed.

Lemma rstrip_prefix (s : text) : rstrip s `prefix_of` s.
Proof.
  unfold rstrip. destruct (lstrip_suffix (rev s)) as [k Hk].
  exists (rev k). rewrite <- rev_app_distr, <- Hk, rev_involutive. reflexivity.
Qed.

Lemma blank_rstrip (s : text) : blank s = false -> blank (rstrip s) = false.
Proof.
  intros Hs. unfold rstrip. rewrite blank_rev. apply blank_lstrip.
  rewrite blank_rev. exact Hs.
Qed.

Lemma strip_nil (s : text) : strip s = [] <-> blank s = true.
Proof.
  unfold strip. rewrite lstrip_nil. split; intros Hb.
  - destruct (blank s) eqn:Es; [reflexivity|].
    rewrite (blank_rstrip s Es) in Hb. discriminate.
  - destruct (rstrip_prefix s) as [k Hk]. rewrite Hk, blank_app in Hb.
    apply andb_true_iff in Hb. tauto.
Qed.

(** The stripped form of a non-blank prefix starts the stripped text. *)
Lemma strip_prefix_app (a b : text) :
  blank a = false -> strip a `prefix_of` strip (a ++ b).
Proof.
  intros Ha. unfold strip. destruct (blank b) eqn:Eb.
  - rewrite rstrip_blank by exact Eb. reflexivity.
  - rewrite rstrip_nonblank by exact Eb.
    rewrite lstrip_nonblank by exact Ha.
    destruct (rstrip_prefix a) as [k Hk].
    rewrite Hk at 2. rewrite lstrip_nonblank by (apply blank_rstrip; exact Ha).
    rewrite <- app_assoc. apply prefix_app_r. reflexivity.
Qed.

(** The stripped form of a non-blank suffix ends the stripped text. *)
Lemma strip_suffix_app (a b : text) :
  blank b = false -> strip b `suffix_of` strip (a ++ b).
Proof.
  intros Hb. unfold strip. rewrite rstrip_nonblank by exact Hb.
  destruct (blank a) eqn:Ea.
  - rewrite lstrip_blank by exact Ea. reflexivity.
  - rewrite lstrip_nonblank by exact Ea.
    apply suffix_app_r, lstrip_suffix.
Qed.

(** ** The overlap between consecutive chunks *)

Lemma slice_from_suffix {A} (s : list A) (i : Z) : slice_from s i `suffix_of` s.
Proof. unfold slice_from. eexists. symmetry. apply take_drop. Qed.

Lemma suffix_len {A} (l1 l2 : list A) : l1 `suffix_of` l2 -> len l1 <= len l2.
Proof. intros [k ->]. unfold len. rewrite length_app. lia. Qed.

Lemma get_overlap_text_suffix (s : text) (overlap_size : Z) :
  TextSplitter._get_overlap_text s overlap_size `suffix_of` s.
Proof.
  unfold TextSplitter._get_overlap_text.
  destruct (len s <=? overlap_size); [reflexivity|].
  destruct (find (slice_from s (- overlap_size)) space >? 0).
  - etransitivity; apply slice_from_suffix.
  - apply slice_from_suffix.
Qed.

Lemma get_overlap_text_len (s : text) (overlap_size : Z) :
  0 < overlap_size ->
  len (TextSplitter._get_overlap_text s overlap_size) <= overlap_size.
Proof.
  intros Hpos. unfold TextSplitter._get_overlap_text.
  destruct (Z.leb_spec (len s) overlap_size) as [Hle|Hgt]; [exact Hle|].
  assert (Hw : len (slice_from s (- overlap_size)) = overlap_size).
  { unfold slice_from. destruct (Z.ltb_spec (- overlap_size) 0); [|lia].
    unfold len in *. rewrite length_drop. lia. }
  destruct (find (slice_from s (- overlap_size)) space >? 0).
  - pose proof (suffix_len _ _
        (slice_from_suffix (slice_from s (- overlap_size))
           (find (slice_from s (- overlap_size)) space + 1))).
    lia.
  - lia.
Qed.

Section SentenceLoop.
Variables chunk_size chunk_overlap : Z.

Local Abbreviation step :=
  (TextSplitter.split_text_step chunk_size chunk_overlap).

Lemma split_text_step_cases (chunks : list text) (buffer sentence : text) :
  buffer <> [] ->
  step (chunks, buffer) sentence = (chunks, buffer ++ sentence)
  \/ step (chunks, buffer) sentence
     = (chunks ++ [strip buffer],
        TextSplitter._get_overlap_text buffer chunk_overlap ++ sentence).
Proof.
  intros Hne. unfold TextSplitter.split_text_step.
  destruct (len buffer + len sentence >? chunk_size); [|left; reflexivity].
  destruct buffer; [congruence|]. right. reflexivity.
Qed.

Lemma split_text_step_overflow (chunks : list text) (buffer sentence : text) :
  buffer <> [] ->
  len buffer + len sentence > chunk_size ->
  step (chunks, buffer) sentence
  = (chunks ++ [strip buffer],
     TextSplitter._get_overlap_text buffer chunk_overlap ++ sentence).
Proof.
  intros Hne Hover. unfold TextSplitter.split_text_step.
  destruct (Z.gtb_spec (len buffer + len sentence) chunk_size); [|lia].
  destruct buffer; [congruence|]. reflexivity.
Qed.

Lemma split_text_step_chunks (chunks : list text) (buffer sentence : text) :
  step (chunks, buffer) sentence
  = (chunks ++ fst (step ([], buffer) sentence),
     snd (step ([], buffer) sentence)).
Proof.
  unfold TextSplitter.split_text_step.
  destruct (len buffer + len sentence >? chunk_size);
    [destruct buffer|]; cbn; rewrite ?app_nil_r; reflexivity.
Qed.

Lemma split_text_loop_chunks (sentences chunks : list text) (buffer : text) :
  fold_left step sentences (chunks, buffer)
  = (chunks ++ fst (fold_left step sentences ([], buffer)),
     snd (fold_left step sentences ([], buffer))).
Proof.
  revert chunks buffer. induction sentences as [|s l IH]; intros chunks buffer.
  - cbn. rewrite app_nil_r. reflexivity.
  - cbn [fold_left]. rewrite split_text_step_chunks.
    destruct (step ([], buffer) s) as [c1 b1]. cbn [fst snd].
    rewrite (IH (chunks ++ c1)), (IH c1). cbn [fst snd].
    rewrite app_assoc. reflexivity.
Qed.

Lemma split_text_finish_chunks (chunks more : list text) (buffer : text) :
  TextSplitter.split_text_finish (chunks ++ more, buffer)
  = chunks ++ TextSplitter.split_text_finish (more, buffer).
Proof.
  unfold TextSplitter.split_text_finish.
  destruct (strip buffer); [reflexivity|]. rewrite app_assoc. reflexivity.
Qed.

(** From a buffer that is not blank, the next chunk emitted is the
    stripped buffer, extended by the sentences appended to it meanwhile. *)
Lemma next_chunk_from_buffer (sentences chunks : list text) (buffer : text) :
  blank buffer = false ->
  exists tail more,
    TextSplitter.split_text_finish (fold_left step sentences (chunks, buffer))
    = chunks ++ strip (buffer ++ tail) :: more.
Proof.
  revert chunks buffer.
  induction sentences as [|s l IH]; intros chunks buffer Hb.
  - exists [], []. cbn. rewrite app_nil_r.
    destruct (strip buffer) eqn:Es; [|reflexivity].
    apply strip_nil in Es. congruence.
  - change (fold_left step (s :: l) (chunks, buffer))
      with (fold_left step l (step (chunks, buffer) s)).
    destruct (split_text_step_cases chunks buffer s) as [-> | ->].
    + intros ->. discriminate.
    + destruct (IH chunks (buffer ++ s)) as (tail & more & Hf).
      { rewrite blank_app, Hb. reflexivity. }
      exists (s ++ tail), more. rewrite Hf, app_assoc. reflexivity.
    + exists [].
      rewrite split_text_loop_chunks, split_text_finish_chunks.
      rewrite app_nil_r, <- app_assoc. cbn. eauto.
Qed.

End SentenceLoop.

Lemma split_by_sentences_not_blank (s sentence : text) :
  sentence ∈ TextSplitter._split_by_sentences s -> blank sentence = false.
Proof.
  unfold TextSplitter._split_by_sentences.
  intros (p & -> & Hp)%list_elem_of_fmap.
  apply list_elem_of_filter in Hp as [Hp _].
  rewrite blank_app. destruct (blank p) eqn:Ep; [|reflexivity].
  apply strip_nil in Ep. contradiction.
Qed.

(** ** The metadata of the chunks *)

(** The metadata that [split_documents] gives to chunk [i] of [total]. *)
Definition stamped (md : pydict) (i total original_length : Z) : pydict :=
  <["original_length" := VInt original_length]>
    (<["total_chunks" := VInt total]> (<["chunk_id" := VInt i]> md)).

(** [produced_from self documents cd]: [cd] is chunk [i] of one of the
    [documents], with that document's metadata, stamped. *)
Definition produced_from (self : TextSplitter.t) (documents : list pydict)
           (cd : pydict) : Prop :=
  exists doc md content chunks (i : nat) chunk n,
    doc ∈ documents
    /\ doc !! "metadata" = Some (VDict md)
    /\ doc !! "content" = Some content
    /\ TextSplitter.split_text_value self content = Ok chunks
    /\ chunks !! i = Some chunk
    /\ py_len content = Ok n
    /\ cd = {[ "content" := chunk;
               "metadata" := VDict (stamped md (Z.of_nat i) (len chunks) n) ]}.

Lemma stamped_keeps (md : pydict) (i total n : Z) :
  dom md ⊆ dom (stamped md i total n)
  /\ stamped md i total n !! "source" = md !! "source"
  /\ stamped md i total n !! "category" = md !! "category"
  /\ stamped md i total n !! "chunk_id" = Some (VInt i)
  /\ stamped md i total n !! "total_chunks" = Some (VInt total)
  /\ stamped md i total n !! "original_length" = Some (VInt n)
  /\ (forall key, key <> "chunk_id"%string -> key <> "total_chunks"%string ->
        key <> "original_length"%string ->
        stamped md i total n !! key = md !! key).
Proof.
  unfold stamped. split; [rewrite !dom_insert; set_solver|].
  repeat split; intros; simplify_map_eq; reflexivity.
Qed.

Lemma chunked_doc_produced (self : TextSplitter.t) (documents : list pydict)
      (doc : pydict) (content : pyval) (chunks : list pyval) (i : nat)
      (chunk : pyval) (cd : pydict) :
  doc ∈ documents ->
  doc !! "content" = Some content ->
  TextSplitter.split_text_value self content = Ok chunks ->
  chunks !! i = Some chunk ->
  TextSplitter.chunked_doc doc chunks i chunk = Ok cd ->
  produced_from self documents cd.
Proof.
  intros Hin Hc Hsplit Hi. unfold TextSplitter.chunked_doc, getitem.
  rewrite Hc. destruct (doc !! "metadata") as [[| | | |md]|] eqn:Hm;
    cbn; try discriminate.
  destruct (py_len content) as [n|] eqn:Hn; cbn; [|discriminate].
  intros [= <-]. exists doc, md, content, chunks, i, chunk, n.
  repeat split; assumption.
Qed.

Lemma stamp_chunks_produced (self : TextSplitter.t) (documents : list pydict)
      (doc : pydict) (content : pyval) (chunks rest : list pyval) (i : nat)
      (acc out : list pydict) (o : option exn) :
  doc ∈ documents ->
  doc !! "content" = Some content ->
  TextSplitter.split_text_value self content = Ok chunks ->
  (forall j chunk, rest !! j = Some chunk -> chunks !! (i + j)%nat = Some chunk) ->
  Forall (produced_from self documents) acc ->
  TextSplitter.stamp_chunks doc chunks i rest acc = (out, o) ->
  Forall (produced_from self documents) out.
Proof.
  intros Hin Hc Hsplit. revert i acc.
  induction rest as [|chunk rest IH]; intros i acc Hrest Hacc; cbn.
  - intros [= <- _]. exact Hacc.
  - destruct (TextSplitter.chunked_doc doc chunks i chunk) as [cd|e] eqn:Ecd.
    + apply IH.
      * intros j c Hj. replace (S i + j)%nat with (i + S j)%nat by lia.
        apply Hrest. exact Hj.
      * apply Forall_app. split; [exact Hacc|]. constructor; [|constructor].
        apply (chunked_doc_produced self documents doc content chunks i chunk);
          try assumption.
        specialize (Hrest 0%nat chunk eq_refl).
        rewrite Nat.add_0_r in Hrest. exact Hrest.
    + intros [= <- _]. exact Hacc.
Qed.

Lemma split_documents_from_produced (self : TextSplitter.t)
      (documents rest acc out : list pydict) :
  (forall doc, doc ∈ rest -> doc ∈ documents) ->
  Forall (produced_from self documents) acc ->
  TextSplitter.split_documents_from self rest acc = Ok out ->
  Forall (produced_from self documents) out.
Proof.
  revert acc. induction rest as [|doc rest IH]; intros acc Hsub Hacc; cbn.
  - intros [= <-]. exact Hacc.
  - assert (Hacc' : forall acc' o,
               TextSplitter.split_document_try self doc acc = (acc', o) ->
               Forall (produced_from self documents) acc').
    { intros acc' o. unfold TextSplitter.split_document_try, getitem.
      destruct (doc !! "content") as [content|] eqn:Hc; cbn.
      2:{ intros [= <- _]. exact Hacc. }
      destruct (TextSplitter.split_text_value self content) as [chunks|e] eqn:Hs.
      2:{ intros [= <- _]. exact Hacc. }
      apply (stamp_chunks_produced self documents doc content chunks chunks 0);
        try assumption.
      - apply Hsub. left.
      - intros j c Hj. exact Hj. }
    destruct (TextSplitter.split_document_try self doc acc) as [acc' [e|]] eqn:Et.
    + destruct (TextSplitter.split_document_except doc); cbn; [|discriminate].
      apply IH; [intros d Hd; apply Hsub; right; exact Hd|].
      apply (Hacc' acc' (Some e) eq_refl).
    + apply IH; [intros d Hd; apply Hsub; right; exact Hd|].
      apply (Hacc' acc' None eq_refl).
Qed.

(** The metadata part of C7: whenever [split_documents] returns, every
    chunk it returns is chunk [i] of one of the documents, and its metadata
    is that document's metadata with [chunk_id = i], [total_chunks] and
    [original_length] set; all keys are kept, and [source] and [category]
    keep their values. *)
Lemma split_documents_metadata (self : TextSplitter.t)
      (documents out : list pydict) (cd : pydict) :
  TextSplitter.split_documents self documents = Ok out ->
  cd ∈ out ->
  produced_from self documents cd.
Proof.
  intros Hsplit Hin.
  assert (Hall : Forall (produced_from self documents) out).
  { apply (split_documents_from_produced self documents documents [] out);
      [auto | constructor | exact Hsplit]. }
  rewrite Forall_forall in Hall. apply Hall. exact Hin.
Qed.

(** The skipping part of C7, where the handler's log line can be built:
    a document whose [try] block raises before any chunk is appended, and
    whose metadata is absent or a mapping, is skipped. *)
Lemma split_documents_skips (self : TextSplitter.t) (doc : pydict)
      (documents : list pydict) (e : exn) :
  TextSplitter.split_document_try self doc [] = ([], Some e) ->
  (doc !! "metadata" = None \/ exists md, doc !! "metadata" = Some (VDict md)) ->
  TextSplitter.split_documents self (doc :: documents)
  = TextSplitter.split_documents self documents.
Proof.
  intros Htry Hmd. unfold TextSplitter.split_documents. cbn.
  rewrite Htry. unfold TextSplitter.split_document_except.
  destruct Hmd as [-> | [md ->]]; reflexivity.
Qed.

(** * Further properties *)

(** ** [split_documents] *)

(** Whenever [split_documents] returns, each returned chunk is chunk [i] of
    one of the documents; its metadata has every key of that document's
    metadata, with the document's values except under the three stamped
    keys, and [chunk_id = i], [total_chunks] the number of chunks of the
    document, [original_length] the length of its content. *)
Theorem chunk_metadata_extends_document (self : TextSplitter.t)
        (documents out : list pydict) (cd : pydict) :
  TextSplitter.split_documents self documents = Ok out ->
  cd ∈ out ->
  exists doc md md' content chunks (i : nat) chunk n,
    doc ∈ documents
    /\ doc !! "metadata" = Some (VDict md)
    /\ doc !! "content" = Some content
    /\ TextSplitter.split_text_value self content = Ok chunks
    /\ chunks !! i = Some chunk
    /\ py_len content = Ok n
    /\ cd !! "content" = Some chunk
    /\ cd !! "metadata" = Some (VDict md')
    /\ dom md ⊆ dom md'
    /\ md' !! "chunk_id" = Some (VInt (Z.of_nat i))
    /\ md' !! "total_chunks" = Some (VInt (len chunks))
    /\ md' !! "original_length" = Some (VInt n)
    /\ (forall key, key <> "chunk_id"%string -> key <> "total_chunks"%string ->
          key <> "original_length"%string -> md' !! key = md !! key).
Proof.
  intros Hsplit Hin.
  destruct (split_documents_metadata self documents out cd Hsplit Hin)
    as (doc & md & content & chunks & i & chunk & n
        & Hdoc & Hmd & Hc & Hs & Hi & Hn & ->).
  destruct (stamped_keeps md (Z.of_nat i) (len chunks) n)
    as (Hdom & _ & _ & Hid & Htot & Horig & Hkeep).
  exists doc, md, (stamped md (Z.of_nat i) (len chunks) n),
    content, chunks, i, chunk, n.
  repeat (split; [assumption || reflexivity|]). exact Hkeep.
Qed.

Lemma chunk_metadata_extends_document_witness :
  exists out cd,
    TextSplitter.split_documents (TextSplitter.mk 15 3) [good_document] = Ok out
    /\ cd ∈ out
    /\ exists md', cd !! "metadata" = Some (VDict md')
                   /\ md' !! "source" = Some (VStr py"a.md").
Proof.
  destruct (TextSplitter.split_documents (TextSplitter.mk 15 3) [good_document])
    as [[|cd out]|] eqn:Es; [discriminate| |discriminate].
  exists (cd :: out), cd. split; [reflexivity|]. split; [left|].
  destruct (chunk_metadata_extends_document (TextSplitter.mk 15 3)
              [good_document] (cd :: out) cd Es ltac:(left))
    as (doc & md & md' & content & chunks & i & chunk & n & Hdoc & Hmd & _ & _
        & _ & _ & _ & Hcd & _ & _ & _ & _ & Hkeep).
  exists md'. split; [exact Hcd|].
  rewrite Hkeep by discriminate.
  apply list_elem_of_singleton in Hdoc. subst doc.
  vm_compute in Hmd. injection Hmd as <-. vm_compute. reflexivity.
Defined.

(** A document whose [try] block raises before a chunk is appended (no
    content, content without a length, no metadata) and whose metadata is
    absent or a mapping is skipped: the result is that of the other
    documents. *)
Theorem failing_document_is_skipped (self : TextSplitter.t)
        (before after : list pydict) (doc : pydict) (e : exn) (out : list pydict) :
  TextSplitter.split_document_try self doc [] = ([], Some e) ->
  (doc !! "metadata" = None \/ exists md, doc !! "metadata" = Some (VDict md)) ->
  TextSplitter.split_documents self (before ++ after) = Ok out ->
  TextSplitter.split_documents self (before ++ doc :: after) = Ok out.
Proof.
  intros Htry Hmd. unfold TextSplitter.split_documents.
  generalize (@nil pydict) as acc.
  induction before as [|d before IH]; intros acc; cbn [app].
  - cbn [TextSplitter.split_documents_from].
    assert (Hacc : TextSplitter.split_document_try self doc acc = (acc, Some e)).
    { revert Htry. unfold TextSplitter.split_document_try.
      destruct (content ← getitem doc "content";
                TextSplitter.split_text_value self content) as [chunks|e'].
      - destruct chunks as [|chunk chunks']; [discriminate|].
        cbn. destruct (TextSplitter.chunked_doc doc (chunk :: chunks') 0 chunk).
        + intros Hf. exfalso.
          assert (Hlen : forall rest i (a : list pydict) o r,
                     TextSplitter.stamp_chunks doc (chunk :: chunks') i rest a = (r, o) ->
                     (length a <= length r)%nat).
          { clear. induction rest as [|c rest IHr]; intros i a o r; cbn.
            - intros [= <- _]. lia.
            - destruct (TextSplitter.chunked_doc doc (chunk :: chunks') i c).
              + intros Hr. apply IHr in Hr. rewrite length_app in Hr. cbn in Hr. lia.
              + intros [= <- _]. lia. }
          apply Hlen in Hf. cbn in Hf. lia.
        + intros [= <-]. reflexivity.
      - intros [= <-]. reflexivity. }
    rewrite Hacc. unfold TextSplitter.split_document_except.
    destruct Hmd as [-> | [md ->]]; cbn; auto.
  - cbn [TextSplitter.split_documents_from].
    destruct (TextSplitter.split_document_try self d acc) as [acc' [e'|]].
    + destruct (TextSplitter.split_document_except d); cbn; [apply IH|auto].
    + apply IH.
Qed.

Lemma failing_document_is_skipped_witness :
  TextSplitter.split_document_try (TextSplitter.mk 15 3)
    document_without_content [] = ([], Some (KeyError "content"))
  /\ (exists out,
        TextSplitter.split_documents (TextSplitter.mk 15 3)
          ([good_document] ++ [good_document]) = Ok out
        /\ TextSplitter.split_documents (TextSplitter.mk 15 3)
             ([good_document] ++ document_without_content :: [good_document])
           = Ok out).
Proof.
  split; [vm_compute; reflexivity|].
  destruct (TextSplitter.split_documents (TextSplitter.mk 15 3)
              ([good_document] ++ [good_document])) as [out|] eqn:Es;
    [|discriminate].
  exists out. split; [reflexivity|].
  apply (failing_document_is_skipped (TextSplitter.mk 15 3) [good_document]
           [good_document] document_without_content (KeyError "content") out);
    [vm_compute; reflexivity | right; eexists; vm_compute; reflexivity | exact Es].
Defined.

(** ** Words *)

(** [nospace w]: no code point of [w] is whitespace. *)
Definition nospace (w : text) : bool := forallb (fun c => negb (isspace c)) w.

(** A word: not empty and without whitespace. *)
Definition is_word (w : text) : Prop := w <> [] /\ nospace w = true.

Lemma nospace_app (a b : text) : nospace (a ++ b) = nospace a && nospace b.
Proof. apply forallb_app. Qed.

Lemma split_from_words (cur s : text) :
  nospace cur = true -> Forall is_word (split_from cur s).
Proof.
  revert cur. induction s as [|c s IH]; intros cur Hcur; cbn.
  - destruct cur; constructor; [split; [discriminate|exact Hcur]|constructor].
  - destruct (isspace c) eqn:Ec.
    + destruct cur as [|x cur'].
      * apply IH. reflexivity.
      * constructor; [split; [discriminate|exact Hcur]|]. apply IH. reflexivity.
    + apply IH. rewrite nospace_app, Hcur. cbn. rewrite Ec. reflexivity.
Qed.

Lemma split_words (s : text) : Forall is_word (split s).
Proof. apply split_from_words. reflexivity. Qed.

Lemma split_from_nospace (cur w : text) :
  nospace w = true ->
  split_from cur w = match cur ++ w with [] => [] | _ => [cur ++ w] end.
Proof.
  revert cur. induction w as [|c w IH]; intros cur Hw; cbn.
  - rewrite app_nil_r. reflexivity.
  - cbn in Hw. apply andb_true_iff in Hw as [Hc Hw].
    apply negb_true_iff in Hc. rewrite Hc, (IH _ Hw), <- app_assoc. cbn.
    destruct cur; reflexivity.
Qed.

Lemma split_word (w : text) : is_word w -> split w = [w].
Proof.
  intros [Hne Hw]. unfold split. rewrite split_from_nospace by exact Hw.
  cbn. destruct w; [congruence|reflexivity].
Qed.

Lemma split_from_app (cur a b : text) (sp : ascii) :
  isspace sp = true ->
  split_from cur (a ++ sp :: b) = split_from cur a ++ split b.
Proof.
  intros Hsp. revert cur. induction a as [|c a IH]; intros cur; cbn.
  - rewrite Hsp. destruct cur; reflexivity.
  - destruct (isspace c).
    + destruct cur; rewrite IH; reflexivity.
    + apply IH.
Qed.

(** [' '.join(words).split()] gives the words back. *)
Lemma split_join (ws : list text) :
  Forall is_word ws -> split (join [space] ws) = ws.
Proof.
  induction 1 as [|w ws Hw Hws IH]; [reflexivity|].
  destruct ws as [|w2 ws'].
  - cbn. apply split_word. exact Hw.
  - change (join [space] (w :: w2 :: ws'))
      with (w ++ space :: join [space] (w2 :: ws')).
    unfold split. rewrite split_from_app by reflexivity.
    fold (split w). rewrite (split_word w Hw), IH. reflexivity.
Qed.

Lemma estimated_length_app (a b : list text) :
  TextSplitter.estimated_length (a ++ b)
  = TextSplitter.estimated_length a + TextSplitter.estimated_length b.
Proof.
  unfold TextSplitter.estimated_length.
  induction a as [|w a IH]; cbn [app fold_right]; [lia|]. rewrite IH. lia.
Qed.

Lemma estimated_length_nonneg (a : list text) :
  0 <= TextSplitter.estimated_length a.
Proof.
  unfold TextSplitter.estimated_length.
  induction a as [|w a IH]; cbn [fold_right]; unfold len in *; lia.
Qed.

Lemma join_len (ws : list text) :
  ws <> [] -> len (join [space] ws) = TextSplitter.estimated_length ws - 1.
Proof.
  unfold TextSplitter.estimated_length.
  induction ws as [|w ws IH]; [congruence|]. intros _.
  destruct ws as [|w2 ws'].
  - cbn. unfold len. lia.
  - change (join [space] (w :: w2 :: ws'))
      with (w ++ space :: join [space] (w2 :: ws')).
    cbn [fold_right] in *. unfold len in *.
    rewrite length_app. cbn [length].
    specialize (IH ltac:(discriminate)). lia.
Qed.

(** ** [_get_overlap_words] *)

Lemma overlap_words_loop_spec (overlap_size : Z) (rwords acc : list text) :
  exists taken rest,
    rwords = taken ++ rest
    /\ TextSplitter.overlap_words_loop rwords overlap_size acc
         (TextSplitter.estimated_length acc)
       = rev taken ++ acc
    /\ (taken <> [] ->
        TextSplitter.estimated_length (rev taken ++ acc) <= overlap_size)
    /\ match rest with
       | [] => True
       | w :: _ =>
           TextSplitter.estimated_length (rev taken ++ acc) + len w + 1
           > overlap_size
       end.
Proof.
  revert acc. induction rwords as [|w r IH]; intros acc.
  - exists [], []. cbn. repeat split; congruence.
  - cbn [TextSplitter.overlap_words_loop].
    destruct (Z.gtb_spec (TextSplitter.estimated_length acc + len w + 1)
                         overlap_size) as [Hgt|Hle].
    + exists [], (w :: r). cbn [rev app]. repeat split; [congruence|lia].
    + destruct (IH (w :: acc)) as (taken & rest & -> & Hr & Hb & Hm).
      assert (He : TextSplitter.estimated_length (w :: acc)
                   = TextSplitter.estimated_length acc + len w + 1).
      { unfold TextSplitter.estimated_length. cbn [fold_right]. lia. }
      rewrite He in Hr.
      exists (w :: taken), rest. cbn [rev]. rewrite <- !app_assoc. cbn [app].
      split; [reflexivity|]. split; [exact Hr|]. split; [|exact Hm].
      intros _. destruct taken as [|t taken'].
      * cbn [rev app]. lia.
      * apply Hb. discriminate.
Qed.

Lemma overlap_words_facts (words : list text) (overlap_size : Z) :
  let overlap := TextSplitter._get_overlap_words words overlap_size in
  overlap `suffix_of` words
  /\ TextSplitter.estimated_length overlap <= Z.max 0 overlap_size
  /\ (overlap = words
      \/ exists before w,
           words = before ++ w :: overlap
           /\ TextSplitter.estimated_length overlap + len w + 1 > overlap_size).
Proof.
  cbv zeta. unfold TextSplitter._get_overlap_words.
  destruct words as [|w0 ws]; [cbn; repeat split; [reflexivity|lia|auto]|].
  set (words := w0 :: ws).
  destruct (overlap_words_loop_spec overlap_size (rev words) [])
    as (taken & rest & Hsplit & Hr & Hb & Hm).
  change (TextSplitter.estimated_length []) with 0 in Hr. rewrite Hr.
  rewrite app_nil_r in *.
  assert (Hw : words = rev rest ++ rev taken).
  { rewrite <- rev_app_distr, <- Hsplit, rev_involutive. reflexivity. }
  split; [exists (rev rest); exact Hw|]. split.
  - destruct taken as [|t taken']; [cbn; lia|].
    specialize (Hb ltac:(discriminate)). lia.
  - destruct rest as [|w rest'].
    + left. rewrite Hw. reflexivity.
    + right. exists (rev rest'), w. split; [|exact Hm].
      rewrite Hw. cbn [rev]. rewrite <- app_assoc. reflexivity.
Qed.

(** The overlap words are the longest run of whole words at the end of the
    list whose estimated length (each word plus one) fits in
    [overlap_size]: a suffix of the list, within the budget, and either the
    whole list or preceded by a word that would exceed the budget. *)
Theorem get_overlap_words_longest_suffix (words : list text) (overlap_size : Z) :
  let overlap := TextSplitter._get_overlap_words words overlap_size in
  overlap `suffix_of` words
  /\ TextSplitter.estimated_length overlap <= Z.max 0 overlap_size
  /\ (overlap = words
      \/ exists before w,
           words = before ++ w :: overlap
           /\ TextSplitter.estimated_length overlap + len w + 1 > overlap_size).
Proof. apply overlap_words_facts. Qed.

(** ** [_split_long_sentence] *)

Lemma is_word_suffix (a b : list text) :
  a `suffix_of` b -> Forall is_word b -> Forall is_word a.
Proof. intros [k ->] H. apply Forall_app in H. tauto. Qed.

(** What a chunk adds: the words [fresh], not empty, at the end of the
    chunk's words. *)
Definition adds (chunk : text) (fresh : list text) : Prop :=
  fresh <> [] /\ fresh `suffix_of` split chunk.

Section LongSentence.
Variables chunk_size chunk_overlap : Z.

Local Abbreviation word_step :=
  (TextSplitter.long_sentence_step chunk_size chunk_overlap).

(** The words seen so far are the words added by the chunks, then the
    words added by the running chunk. *)
Definition words_kept (seen : list text) (st : list text * list text) : Prop :=
  exists freshs overlap fresh,
    Forall2 adds (fst st) freshs
    /\ snd st = overlap ++ fresh
    /\ (snd st <> [] -> fresh <> [])
    /\ Forall is_word (snd st)
    /\ concat freshs ++ fresh = seen.

Lemma words_kept_step (seen : list text) (st : list text * list text) (w : text) :
  is_word w -> words_kept seen st -> words_kept (seen ++ [w]) (word_step st w).
Proof.
  intros Hw (freshs & overlap & fresh & Hch & Hcur & Hne & Hwords & Hseen).
  destruct st as [chunks current]. cbn [fst snd] in *.
  unfold TextSplitter.long_sentence_step.
  destruct (TextSplitter.estimated_length current + len w >? chunk_size).
  - destruct current as [|c0 current'].
    + exists (freshs ++ [[w]]), [], []. cbn [fst snd].
      assert (fresh = []) as -> by (destruct overlap, fresh; cbn in *; congruence).
      split; [|split; [reflexivity|split; [congruence|split; [constructor|]]]].
      * apply Forall2_app; [exact Hch|]. constructor; [|constructor].
        split; [discriminate|]. rewrite (split_word w Hw). reflexivity.
      * rewrite app_nil_r in Hseen. rewrite app_nil_r, concat_app. cbn.
        rewrite ?app_nil_r, Hseen. reflexivity.
    + set (current := c0 :: current') in *.
      destruct (overlap_words_facts current chunk_overlap) as (Hsuf & _ & _).
      exists (freshs ++ [fresh]),
        (TextSplitter._get_overlap_words current chunk_overlap), [w].
      cbn [fst snd].
      split; [|split; [reflexivity|split; [intros _; discriminate|split]]].
      * apply Forall2_app; [exact Hch|]. constructor; [|constructor].
        split; [apply Hne; discriminate|].
        rewrite (split_join current Hwords). exists overlap. exact Hcur.
      * apply Forall_app. split; [|constructor; [exact Hw|constructor]].
        apply (is_word_suffix _ current Hsuf Hwords).
      * rewrite concat_app. cbn. rewrite ?app_nil_r, Hseen. reflexivity.
  - exists freshs, overlap, (fresh ++ [w]). cbn [fst snd].
    split; [exact Hch|]. split; [rewrite Hcur, app_assoc; reflexivity|].
    split; [intros _; destruct fresh; discriminate|].
    split; [apply Forall_app; split; [exact Hwords|constructor; [exact Hw|constructor]]|].
    rewrite app_assoc, Hseen. reflexivity.
Qed.

Lemma words_kept_loop (words seen : list text) (st : list text * list text) :
  Forall is_word words -> words_kept seen st ->
  words_kept (seen ++ words) (fold_left word_step words st).
Proof.
  intros Hws. revert seen st.
  induction Hws as [|w words Hw _ IH]; intros seen st Hst; cbn [fold_left].
  - rewrite app_nil_r. exact Hst.
  - replace (seen ++ w :: words) with ((seen ++ [w]) ++ words)
      by (rewrite <- app_assoc; reflexivity).
    apply IH, words_kept_step; assumption.
Qed.

(** Chunks and running chunk stay within [bound], as long as no word is
    longer than the chunk size. *)
Definition within (bound : Z) (st : list text * list text) : Prop :=
  Forall (fun chunk => len chunk <= bound) (fst st)
  /\ (snd st <> [] -> TextSplitter.estimated_length (snd st) - 1 <= bound).

Lemma within_step (st : list text * list text) (w : text) :
  len w <= chunk_size ->
  within (chunk_size + Z.max 0 chunk_overlap) st ->
  within (chunk_size + Z.max 0 chunk_overlap) (word_step st w).
Proof.
  intros Hw [Hch Hcur]. destruct st as [chunks current]. cbn [fst snd] in *.
  unfold TextSplitter.long_sentence_step.
  assert (Hone : TextSplitter.estimated_length [w] = len w + 1).
  { unfold TextSplitter.estimated_length. cbn. lia. }
  destruct (Z.gtb_spec (TextSplitter.estimated_length current + len w) chunk_size)
    as [Hgt|Hle].
  - destruct current as [|c0 current'].
    + change (TextSplitter.estimated_length []) with 0 in Hgt. lia.
    + set (current := c0 :: current') in *.
      destruct (overlap_words_facts current chunk_overlap) as (_ & Hb & _).
      split; cbn [fst snd].
      * apply Forall_app. split; [exact Hch|]. constructor; [|constructor].
        rewrite join_len by discriminate. apply Hcur. discriminate.
      * intros _. rewrite estimated_length_app, Hone. lia.
  - split; cbn [fst snd]; [exact Hch|].
    intros _. rewrite estimated_length_app, Hone. lia.
Qed.

Lemma within_loop (words : list text) (st : list text * list text) :
  Forall (fun w => len w <= chunk_size) words ->
  within (chunk_size + Z.max 0 chunk_overlap) st ->
  within (chunk_size + Z.max 0 chunk_overlap) (fold_left word_step words st).
Proof.
  intros Hws. revert st.
  induction Hws as [|w words Hw _ IH]; intros st Hst; cbn [fold_left];
    [exact Hst|].
  apply IH, within_step; assumption.
Qed.

End LongSentence.

(** No word of the sentence is dropped, duplicated out of the overlap, or
    reordered: each chunk adds at least one word, the words it adds stand
    at the end of its own words (the words before them are the overlap), and
    the added words of all chunks, in order, are the words of the
    sentence. *)
Theorem split_long_sentence_keeps_words (sentence : text)
        (chunk_size chunk_overlap : Z) :
  exists freshs,
    Forall2 adds
      (TextSplitter._split_long_sentence sentence chunk_size chunk_overlap)
      freshs
    /\ concat freshs = split sentence.
Proof.
  unfold TextSplitter._split_long_sentence.
  destruct (words_kept_loop chunk_size chunk_overlap (split sentence) []
              ([], []) (split_words sentence))
    as (freshs & overlap & fresh & Hch & Hcur & Hne & Hwords & Hseen).
  { exists [], [], []. cbn. repeat split; try constructor; congruence. }
  destruct (fold_left _ (split sentence) ([], [])) as [chunks current].
  cbn [fst snd app] in *. destruct current as [|c0 current'].
  - assert (fresh = []) as -> by (destruct overlap, fresh; cbn in *; congruence).
    exists freshs. rewrite app_nil_r in Hseen. split; assumption.
  - exists (freshs ++ [fresh]). split.
    + apply Forall2_app; [exact Hch|]. constructor; [|constructor].
      split; [apply Hne; discriminate|].
      rewrite (split_join _ Hwords). exists overlap. exact Hcur.
    + rewrite concat_app. cbn. rewrite ?app_nil_r. exact Hseen.
Qed.

(** When no word of the sentence is longer than [chunk_size], every chunk
    has at most [chunk_size + max(0, chunk_overlap)] characters; so at most
    [chunk_size] when the overlap is not positive. *)
Theorem split_long_sentence_chunk_bound (sentence : text)
        (chunk_size chunk_overlap : Z) :
  Forall (fun w => len w <= chunk_size) (split sentence) ->
  Forall (fun chunk => len chunk <= chunk_size + Z.max 0 chunk_overlap)
         (TextSplitter._split_long_sentence sentence chunk_size chunk_overlap).
Proof.
  intros Hws. unfold TextSplitter._split_long_sentence.
  destruct (within_loop chunk_size chunk_overlap (split sentence) ([], []) Hws)
    as [Hch Hcur].
  { split; [constructor|]. cbn. congruence. }
  destruct (fold_left _ (split sentence) ([], [])) as [chunks current].
  cbn [fst snd] in *. destruct current as [|c0 current']; [exact Hch|].
  apply Forall_app. split; [exact Hch|]. constructor; [|constructor].
  rewrite join_len by discriminate. apply Hcur. discriminate.
Qed.

Lemma split_long_sentence_chunk_bound_witness :
  Forall (fun w => len w <= 10) (split py"aaaa bbb ccccccc")
  /\ Forall (fun chunk => len chunk <= 10 + Z.max 0 8)
            (TextSplitter._split_long_sentence py"aaaa bbb ccccccc" 10 8)
  /\ TextSplitter._split_long_sentence py"aaaa bbb ccccccc" 10 8
     = [py"aaaa bbb"; py"bbb ccccccc"].
Proof.
  assert (Hw : Forall (fun w => len w <= 10) (split py"aaaa bbb ccccccc")).
  { repeat constructor; vm_compute; discriminate. }
  split; [exact Hw|]. split; [|vm_compute; reflexivity].
  apply (split_long_sentence_chunk_bound py"aaaa bbb ccccccc" 10 8 Hw).
Defined.

(** ** The chunks of [split_text] *)

(** [ends_ok s]: [s] starts and ends with a code point that is not
    whitespace (so it is not empty and [strip] leaves it alone). *)
Definition head_ok (s : text) : Prop :=
  match s with
  | c :: _ => isspace c = false
  | [] => False
  end.

Definition ends_ok (s : text) : Prop := head_ok s /\ head_ok (rev s).

Lemma head_ok_app (a b : text) : head_ok a -> head_ok (a ++ b).
Proof. destruct a; cbn; tauto. Qed.

Lemma head_ok_lstrip_id (s : text) : head_ok s -> lstrip s = s.
Proof. destruct s as [|c s]; cbn; [tauto|]. intros ->. reflexivity. Qed.

Lemma head_ok_not_blank (s : text) : head_ok s -> blank s = false.
Proof. destruct s as [|c s]; cbn; [tauto|]. intros ->. reflexivity. Qed.

Lemma lstrip_head_ok (s : text) : blank s = false -> head_ok (lstrip s).
Proof.
  induction s as [|c s IH]; cbn; [discriminate|].
  destruct (isspace c) eqn:Ec; cbn; [exact IH|]. intros _. exact Ec.
Qed.

Lemma ends_ok_strip_id (s : text) : ends_ok s -> s <> [] /\ strip s = s.
Proof.
  intros [Hh Hr]. split; [destruct s; [contradiction|discriminate]|].
  unfold strip, rstrip. rewrite (head_ok_lstrip_id _ Hr), rev_involutive.
  apply head_ok_lstrip_id, Hh.
Qed.

Lemma strip_ends_ok (s : text) : blank s = false -> ends_ok (strip s).
Proof.
  intros Hs. unfold strip. pose proof (blank_rstrip s Hs) as Hr.
  split; [apply lstrip_head_ok, Hr|].
  destruct (lstrip_suffix (rstrip s)) as [k Hk].
  assert (Hne : lstrip (rstrip s) <> []).
  { intros E. apply lstrip_nil in E. congruence. }
  assert (Hrev : head_ok (rev (rstrip s))).
  { unfold rstrip. rewrite rev_involutive. apply lstrip_head_ok.
    rewrite blank_rev. exact Hs. }
  rewrite Hk, rev_app_distr in Hrev.
  destruct (rev (lstrip (rstrip s))) as [|c r] eqn:Er; [|exact Hrev].
  apply (f_equal (@rev ascii)) in Er. rewrite rev_involutive in Er.
  contradiction.
Qed.

Lemma word_ends_ok (w : text) : is_word w -> ends_ok w.
Proof.
  intros [Hne Hw]. split.
  - destruct w as [|c w]; [congruence|]. cbn in *.
    apply andb_true_iff in Hw as [Hc _]. apply negb_true_iff, Hc.
  - assert (Hr : nospace (rev w) = true).
    { unfold nospace in *. rewrite forallb_forall in *.
      intros c Hc. apply Hw, in_rev. exact Hc. }
    destruct (rev w) as [|c r] eqn:Er.
    + apply (f_equal (@rev ascii)) in Er. rewrite rev_involutive in Er.
      contradiction.
    + cbn in *. apply andb_true_iff in Hr as [Hc _].
      apply negb_true_iff, Hc.
Qed.

Lemma join_ends_ok (ws : list text) :
  ws <> [] -> Forall is_word ws -> ends_ok (join [space] ws).
Proof.
  intros Hne Hws. induction Hws as [|w ws Hw Hws IH]; [congruence|].
  destruct ws as [|w2 ws']; [apply word_ends_ok, Hw|].
  change (join [space] (w :: w2 :: ws'))
    with (w ++ space :: join [space] (w2 :: ws')).
  destruct (IH ltac:(discriminate)) as [_ Hr]. split.
  - apply head_ok_app, word_ends_ok, Hw.
  - rewrite rev_app_distr. cbn [rev]. rewrite <- app_assoc.
    apply head_ok_app, Hr.
Qed.

Section TrimmedChunks.
Variables chunk_size chunk_overlap : Z.

Lemma long_sentence_step_ends_ok (st : list text * list text) (w : text) :
  is_word w ->
  Forall ends_ok (fst st) /\ Forall is_word (snd st) ->
  Forall ends_ok (fst (TextSplitter.long_sentence_step chunk_size chunk_overlap st w))
  /\ Forall is_word (snd (TextSplitter.long_sentence_step chunk_size chunk_overlap st w)).
Proof.
  intros Hw [Hch Hcur]. destruct st as [chunks current]. cbn [fst snd] in *.
  unfold TextSplitter.long_sentence_step.
  destruct (TextSplitter.estimated_length current + len w >? chunk_size).
  - destruct current as [|c0 current']; cbn [fst snd].
    + split; [|constructor]. apply Forall_app. split; [exact Hch|].
      constructor; [apply word_ends_ok, Hw|constructor].
    + destruct (overlap_words_facts (c0 :: current') chunk_overlap) as (Hsuf & _).
      split.
      * apply Forall_app. split; [exact Hch|].
        constructor; [apply join_ends_ok; [discriminate|exact Hcur]|constructor].
      * apply Forall_app. split; [apply (is_word_suffix _ _ Hsuf Hcur)|].
        constructor; [exact Hw|constructor].
  - cbn [fst snd]. split; [exact Hch|].
    apply Forall_app. split; [exact Hcur|]. constructor; [exact Hw|constructor].
Qed.

Lemma split_long_sentence_ends_ok (sentence : text) :
  Forall ends_ok
    (TextSplitter._split_long_sentence sentence chunk_size chunk_overlap).
Proof.
  unfold TextSplitter._split_long_sentence.
  assert (Hloop : forall words st,
             Forall is_word words ->
             Forall ends_ok (fst st) /\ Forall is_word (snd st) ->
             Forall ends_ok
               (fst (fold_left (TextSplitter.long_sentence_step chunk_size chunk_overlap) words st))
             /\ Forall is_word
                  (snd (fold_left (TextSplitter.long_sentence_step chunk_size chunk_overlap) words st))).
  { intros words st Hws. revert st.
    induction Hws as [|w words Hw _ IH]; intros st Hst; cbn [fold_left];
      [exact Hst|].
    apply IH, long_sentence_step_ends_ok; assumption. }
  destruct (Hloop (split sentence) ([], []) (split_words sentence))
    as [Hch Hcur]; [split; constructor|].
  destruct (fold_left _ (split sentence) ([], [])) as [chunks current].
  cbn [fst snd] in *. destruct current as [|c0 current']; [exact Hch|].
  apply Forall_app. split; [exact Hch|].
  constructor; [apply join_ends_ok; [discriminate|exact Hcur]|constructor].
Qed.

(** The state of the sentence loop: finished chunks start and end with a
    code point that is not whitespace, and the buffer is empty or not
    blank. *)
Definition chunks_ok (st : list text * text) : Prop :=
  Forall ends_ok (fst st) /\ (snd st = [] \/ blank (snd st) = false).

Lemma split_text_step_ok (st : list text * text) (sentence : text) :
  blank sentence = false -> chunks_ok st ->
  chunks_ok (TextSplitter.split_text_step chunk_size chunk_overlap st sentence).
Proof.
  intros Hs [Hch Hbuf]. destruct st as [chunks buffer]. cbn [fst snd] in *.
  unfold TextSplitter.split_text_step.
  destruct (len buffer + len sentence >? chunk_size).
  - destruct buffer as [|c0 buffer'].
    + pose proof (split_long_sentence_ends_ok sentence) as Hsc.
      destruct (TextSplitter._split_long_sentence sentence chunk_size chunk_overlap)
        as [|sc0 scs] using rev_ind.
      * split; cbn; [rewrite app_nil_r; exact Hch|left; reflexivity].
      * apply Forall_app in Hsc as [Hinit Hlast].
        unfold but_last, last_or. rewrite removelast_last, last_last.
        split; cbn [fst snd].
        -- apply Forall_app. split; assumption.
        -- right. apply head_ok_not_blank.
           apply Forall_inv in Hlast. apply Hlast.
    + split; cbn [fst snd].
      * apply Forall_app. split; [exact Hch|].
        constructor; [|constructor]. apply strip_ends_ok.
        destruct Hbuf as [Hbuf|Hbuf]; [discriminate|exact Hbuf].
      * right. rewrite blank_app, Hs. apply andb_false_r.
  - split; cbn [fst snd]; [exact Hch|].
    right. rewrite blank_app, Hs. apply andb_false_r.
Qed.

Lemma split_text_loop_ok (sentences : list text) (st : list text * text) :
  Forall (fun sentence => blank sentence = false) sentences ->
  chunks_ok st ->
  chunks_ok (fold_left (TextSplitter.split_text_step chunk_size chunk_overlap)
                       sentences st).
Proof.
  intros Hs. revert st.
  induction Hs as [|s l Hs _ IH]; intros st Hst; cbn [fold_left]; [exact Hst|].
  apply IH, split_text_step_ok; assumption.
Qed.

End TrimmedChunks.

(** ** The chunk started by the overlap path *)

Lemma find_from_cases (c : ascii) (s : text) (i : Z) :
  ((c ∉ s) /\ find_from c s i = -1)
  \/ (exists head rest,
        s = head ++ c :: rest /\ (c ∉ head) /\ find_from c s i = i + len head).
Proof.
  revert i. induction s as [|x s IH]; intros i; cbn.
  - left. split; [apply not_elem_of_nil|reflexivity].
  - destruct (Ascii.eqb_spec x c) as [->|Hne].
    + right. exists [], s. split; [reflexivity|].
      split; [apply not_elem_of_nil|]. unfold len. cbn. lia.
    + destruct (IH (i + 1)) as [[Hnot Hf] | (head & rest & -> & Hnot & Hf)].
      * left. split; [|exact Hf].
        intros [E|Hin]%elem_of_cons; [congruence|contradiction].
      * right. exists (x :: head), rest. split; [reflexivity|]. split.
        -- intros [E|Hin]%elem_of_cons; [congruence|contradiction].
        -- rewrite Hf. unfold len. cbn [length]. lia.
Qed.

(** What [_get_overlap_text] returns for a positive [overlap_size]: the
    whole text when it is that short; otherwise the window of its last
    [overlap_size] code points, cut after the window's first space when that
    space is not at index 0, and the whole window when it has no space or
    begins with one. *)
Lemma get_overlap_text_cases (s : text) (overlap_size : Z) :
  0 < overlap_size ->
  (len s <= overlap_size /\ TextSplitter._get_overlap_text s overlap_size = s)
  \/ (overlap_size < len s
      /\ exists before window,
           s = before ++ window
           /\ len window = overlap_size
           /\ ((exists head rest,
                  window = head ++ space :: rest
                  /\ head <> [] /\ (space ∉ head)
                  /\ TextSplitter._get_overlap_text s overlap_size = rest)
               \/ (((space ∉ window) \/ exists rest, window = space :: rest)
                   /\ TextSplitter._get_overlap_text s overlap_size = window))).
Proof.
  intros Hpos. unfold TextSplitter._get_overlap_text.
  destruct (Z.leb_spec (len s) overlap_size) as [Hle|Hgt]; [left; auto|].
  right. split; [exact Hgt|].
  assert (Hw : slice_from s (- overlap_size)
               = drop (Z.to_nat (len s - overlap_size)) s).
  { unfold slice_from. destruct (Z.ltb_spec (- overlap_size) 0); [|lia].
    f_equal. lia. }
  rewrite Hw. set (window := drop (Z.to_nat (len s - overlap_size)) s).
  exists (take (Z.to_nat (len s - overlap_size)) s), window.
  split; [symmetry; apply take_drop|].
  assert (Hlen : len window = overlap_size).
  { unfold window, len in *. rewrite length_drop. lia. }
  split; [exact Hlen|].
  unfold find.
  destruct (find_from_cases space window 0)
    as [[Hnot Hf] | (head & rest & Hwin & Hnot & Hf)]; rewrite Hf.
  - right. destruct (Z.gtb_spec (-1) 0); [lia|]. split; [left; exact Hnot|reflexivity].
  - destruct (Z.gtb_spec (0 + len head) 0) as [Hgt0|Hle0].
    + left. exists head, rest. split; [exact Hwin|].
      split; [intros ->; unfold len in Hgt0; cbn in Hgt0; lia|].
      split; [exact Hnot|].
      unfold slice_from.
      destruct (Z.ltb_spec (0 + len head + 1) 0);
        [unfold len in *; lia|].
      rewrite Hwin. unfold len. rewrite length_app. cbn [length].
      replace (Z.to_nat (Z.min (0 + Z.of_nat (length head) + 1)
                               (Z.of_nat (length head + S (length rest)))))
        with (length (head ++ [space])) by (rewrite length_app; cbn; lia).
      rewrite (cons_middle space head rest), app_assoc.
      apply drop_app_length.
    + right. split; [|reflexivity]. right. exists rest.
      destruct head; [exact Hwin|unfold len in Hle0; cbn in Hle0; lia].
Qed.

(** C8, as the code has it.  When a sentence overflows a non-empty buffer,
    the buffer is emitted stripped and the next chunk is the stripped form
    of a buffer that begins with the overlap text followed by that
    sentence.  The overlap text is a suffix of the emitted buffer.  For
    [chunk_overlap > 0] it is the whole buffer when the buffer has at most
    [chunk_overlap] characters; otherwise it is taken from the window of the
    buffer's last [chunk_overlap] characters: the part after the window's
    first space when that space is not at index 0, the whole window when it
    has no space or begins with one.  When the overlap text is not blank, its
    stripped form is a non-empty string that the next chunk begins with and
    the emitted chunk ends with; a buffer of at most [chunk_overlap]
    characters is repeated whole.  When the overlap text is blank, the next
    chunk starts with the overflowing sentence. *)
Theorem overlap_path_next_chunk (self : TextSplitter.t) (s : text)
        (cs co : option Z) (pre : list text) (sentence : text)
        (rest chunks : list text) (buffer : text) :
  let chunk_size := int_or cs (TextSplitter.chunk_size self) in
  let chunk_overlap := int_or co (TextSplitter.chunk_overlap self) in
  let overlap_text := TextSplitter._get_overlap_text buffer chunk_overlap in
  len s > chunk_size ->
  TextSplitter._split_by_sentences s = pre ++ sentence :: rest ->
  fold_left (TextSplitter.split_text_step chunk_size chunk_overlap) pre ([], [])
  = (chunks, buffer) ->
  buffer <> [] ->
  len buffer + len sentence > chunk_size ->
  exists next more tail,
    TextSplitter.split_text self s cs co = chunks ++ strip buffer :: next :: more
    /\ overlap_text `suffix_of` buffer
    /\ (0 < chunk_overlap -> len overlap_text <= chunk_overlap)
    /\ next = strip (overlap_text ++ sentence ++ tail)
    /\ (strip overlap_text <> [] ->
        strip overlap_text `prefix_of` next
        /\ strip overlap_text `suffix_of` strip buffer)
    /\ (0 < chunk_overlap ->
        (len buffer <= chunk_overlap /\ overlap_text = buffer)
        \/ (chunk_overlap < len buffer
            /\ exists before window,
                 buffer = before ++ window
                 /\ len window = chunk_overlap
                 /\ ((exists head cut,
                        window = head ++ space :: cut
                        /\ head <> [] /\ (space ∉ head)
                        /\ overlap_text = cut)
                     \/ (((space ∉ window) \/ exists cut, window = space :: cut)
                         /\ overlap_text = window))))
    /\ (len buffer <= chunk_overlap ->
        strip buffer <> [] /\ strip buffer `prefix_of` next)
    /\ (blank overlap_text = true -> next = strip (sentence ++ tail)).
Proof.
  intros chunk_size chunk_overlap overlap_text Hlong Hsent Hpre Hne Hover.
  assert (Hall : Forall (fun x => blank x = false) (pre ++ sentence :: rest)).
  { apply Forall_forall. intros x Hx.
    apply (split_by_sentences_not_blank s). rewrite Hsent. exact Hx. }
  apply Forall_app in Hall as [Hallpre Hall].
  assert (Hs : blank sentence = false) by (apply Forall_inv in Hall; exact Hall).
  assert (Hbuf : blank buffer = false).
  { destruct (split_text_loop_ok chunk_size chunk_overlap pre ([], []) Hallpre)
      as [_ Hb]; [split; [constructor|left; reflexivity]|].
    rewrite Hpre in Hb. cbn [snd] in Hb. destruct Hb; [contradiction|assumption]. }
  unfold TextSplitter.split_text. fold chunk_size chunk_overlap.
  destruct (Z.leb_spec (len s) chunk_size); [lia|].
  rewrite Hsent, fold_left_app, Hpre.
  change (fold_left ?f (sentence :: rest) ?st)
    with (fold_left f rest (f st sentence)).
  rewrite split_text_step_overflow by assumption.
  fold overlap_text.
  destruct (next_chunk_from_buffer chunk_size chunk_overlap rest
              (chunks ++ [strip buffer]) (overlap_text ++ sentence))
    as (tail & more & Hf).
  { rewrite blank_app, Hs. apply andb_false_r. }
  exists (strip ((overlap_text ++ sentence) ++ tail)), more, tail.
  split; [rewrite Hf, <- app_assoc; reflexivity|].
  split; [apply get_overlap_text_suffix|].
  split; [apply get_overlap_text_len|].
  split; [rewrite <- app_assoc; reflexivity|].
  split; [|split; [|split]].
  - intros Hov.
    assert (Hb : blank overlap_text = false).
    { destruct (blank overlap_text) eqn:Eb; [|reflexivity].
      apply strip_nil in Eb. contradiction. }
    split.
    + rewrite <- app_assoc. apply strip_prefix_app. exact Hb.
    + destruct (get_overlap_text_suffix buffer chunk_overlap) as [k Hk].
      fold overlap_text in Hk.
      replace (strip buffer) with (strip (k ++ overlap_text))
        by (rewrite <- Hk; reflexivity).
      apply strip_suffix_app. exact Hb.
  - intros Hpos. apply get_overlap_text_cases. exact Hpos.
  - intros Hle.
    assert (Ho : overlap_text = buffer).
    { unfold overlap_text, TextSplitter._get_overlap_text.
      destruct (Z.leb_spec (len buffer) chunk_overlap); [reflexivity|lia]. }
    split.
    + intros E. apply strip_nil in E. congruence.
    + rewrite Ho, <- app_assoc. apply strip_prefix_app. exact Hbuf.
  - intros Hblank. rewrite <- app_assoc. unfold strip.
    rewrite rstrip_nonblank
      by (rewrite blank_app, Hs; reflexivity).
    rewrite lstrip_blank by exact Hblank. reflexivity.
Qed.

Lemma overlap_path_next_chunk_witness :
  let self := TextSplitter.init default_config in
  let s := py"aa bb cc. dddddddd." in
  (len s > 10
   /\ TextSplitter._split_by_sentences s = [py"aa bb cc. "] ++ py"dddddddd. " :: []
   /\ py"aa bb cc. " <> []
   /\ len py"aa bb cc. " + len py"dddddddd. " > 10
   /\ TextSplitter._get_overlap_text py"aa bb cc. " 6 = py"cc. ")
  /\ exists next more,
       TextSplitter.split_text self s (Some 10) (Some 6)
       = [] ++ strip py"aa bb cc. " :: next :: more
       /\ py"cc." `prefix_of` next
       /\ py"cc." `suffix_of` strip py"aa bb cc. ".
Proof.
  cbv zeta. split.
  - split; [reflexivity|]. split; [vm_compute; reflexivity|].
    split; [discriminate|]. split; [reflexivity|]. vm_compute; reflexivity.
  - destruct (overlap_path_next_chunk (TextSplitter.init default_config)
                py"aa bb cc. dddddddd." (Some 10) (Some 6)
                [py"aa bb cc. "] py"dddddddd. " [] [] py"aa bb cc. ")
      as (next & more & tail & Hsplit & _ & _ & _ & Hov & _);
      [reflexivity | vm_compute; reflexivity | vm_compute; reflexivity
       | discriminate | reflexivity |].
    exists next, more. split; [exact Hsplit|].
    apply Hov. vm_compute. discriminate.
Defined.

(** C8, as stated, fails: with [chunk_size = 15] and [chunk_overlap = 3]
    the second sentence of "Hello world. Zebra runs." overflows the buffer
    "Hello world. ", whose last three characters "d. " have their only
    space at index 2, so the overlap text is empty and the second chunk
    shares nothing with the first. *)
Lemma overlap_may_be_empty :
  let self := TextSplitter.init default_config in
  let s := py"Hello world. Zebra runs." in
  ~ (TextSplitter._split_by_sentences s = [py"Hello world. "; py"Zebra runs. "] ->
     fold_left (TextSplitter.split_text_step 15 3) [py"Hello world. "] ([], [])
     = ([], py"Hello world. ") ->
     py"Hello world. " <> [] ->
     len py"Hello world. " + len py"Zebra runs. " > 15 ->
     0 < 3 ->
     TextSplitter.split_text self s (Some 15) (Some 3)
     = [py"Hello world."; py"Zebra runs."] ->
     exists p, p <> [] /\ p `prefix_of` py"Zebra runs."
               /\ p `suffix_of` py"Hello world.").
Proof.
  cbv zeta. intros Hclaim.
  destruct Hclaim as (p & Hne & Hpre & Hsuf);
    [vm_compute; reflexivity | vm_compute; reflexivity | discriminate
     | reflexivity | lia | vm_compute; reflexivity |].
  destruct p as [|c p]; [congruence|].
  destruct Hpre as [k1 Hk1]. injection Hk1 as <- _.
  destruct Hsuf as [k2 Hk2].
  assert (Hin : In "Z"%char py"Hello world.").
  { rewrite Hk2. apply in_or_app. right. left. reflexivity. }
  cbn in Hin. intuition discriminate.
Qed.

(** The chunks of a text longer than the chunk size are not empty and have
    no whitespace at either end. *)
Theorem split_text_chunks_trimmed (self : TextSplitter.t) (s : text)
        (cs co : option Z) :
  len s > int_or cs (TextSplitter.chunk_size self) ->
  Forall (fun chunk => chunk <> [] /\ strip chunk = chunk)
         (TextSplitter.split_text self s cs co).
Proof.
  intros Hlong. unfold TextSplitter.split_text.
  destruct (Z.leb_spec (len s) (int_or cs (TextSplitter.chunk_size self)));
    [lia|].
  destruct (split_text_loop_ok (int_or cs (TextSplitter.chunk_size self))
              (int_or co (TextSplitter.chunk_overlap self))
              (TextSplitter._split_by_sentences s) ([], []))
    as [Hch Hbuf].
  { apply Forall_forall. intros x Hx.
    apply (split_by_sentences_not_blank s x Hx). }
  { split; [constructor|left; reflexivity]. }
  destruct (fold_left _ (TextSplitter._split_by_sentences s) ([], []))
    as [chunks buffer].
  cbn [fst snd] in *. unfold TextSplitter.split_text_finish.
  assert (Hall : Forall ends_ok
            match strip buffer with
            | [] => chunks
            | _ :: _ => chunks ++ [strip buffer]
            end).
  { destruct (strip buffer) eqn:Es; [exact Hch|]. rewrite <- Es.
    apply Forall_app. split; [exact Hch|]. constructor; [|constructor].
    apply strip_ends_ok. destruct Hbuf as [->|Hb]; [discriminate|exact Hb]. }
  eapply Forall_impl; [exact Hall|]. intros c Hc. apply ends_ok_strip_id, Hc.
Qed.

Lemma split_text_chunks_trimmed_witness :
  len py"  Hello world.   Zebra runs.  " > int_or (Some 15) 1000
  /\ Forall (fun chunk => chunk <> [] /\ strip chunk = chunk)
            (TextSplitter.split_text (TextSplitter.init default_config)
               py"  Hello world.   Zebra runs.  " (Some 15) (Some 3))
  /\ TextSplitter.split_text (TextSplitter.init default_config)
       py"  Hello world.   Zebra runs.  " (Some 15) (Some 3)
     = [py"Hello world."; py"Zebra runs."].
Proof.
  split; [reflexivity|]. split; [|vm_compute; reflexivity].
  apply (split_text_chunks_trimmed (TextSplitter.init default_config)
           py"  Hello world.   Zebra runs.  " (Some 15) (Some 3)).
  reflexivity.
Defined.

(** ** Blank texts *)

Lemma split_scan_blank (prev : option ascii) (skipping : bool) (cur s : text) :
  blank cur = true -> blank s = true ->
  Forall (fun piece => blank piece = true) (Re.split_scan prev skipping cur s).
Proof.
  revert prev skipping cur. induction s as [|c s IH]; intros prev sk cur Hcur Hs.
  - constructor; [exact Hcur|constructor].
  - cbn in Hs. apply andb_true_iff in Hs as [Hc Hs]. cbn [Re.split_scan].
    destruct (sk && isspace c); [apply IH; assumption|].
    destruct (isspace c && Re.is_terminator prev).
    + constructor; [exact Hcur|]. apply IH; [reflexivity|exact Hs].
    + apply IH; [|exact Hs]. rewrite blank_app, Hcur. cbn. rewrite Hc.
      reflexivity.
Qed.

Lemma split_scan_not_blank (prev : option ascii) (skipping : bool) (cur s : text) :
  blank cur = false \/ blank s = false ->
  Exists (fun piece => blank piece = false) (Re.split_scan prev skipping cur s).
Proof.
  revert prev skipping cur. induction s as [|c s IH]; intros prev sk cur Hor.
  - constructor. destruct Hor as [H|H]; [exact H|discriminate].
  - cbn [Re.split_scan].
    assert (Hc : isspace c = true ->
                 blank cur = false \/ blank s = false).
    { intros Hc. destruct Hor as [H|H]; [left; exact H|right].
      cbn in H. rewrite Hc in H. exact H. }
    destruct (sk && isspace c) eqn:E1.
    { apply IH, Hc. apply andb_true_iff in E1. tauto. }
    destruct (isspace c && Re.is_terminator prev) eqn:E2.
    { apply andb_true_iff in E2 as [E2 _].
      destruct (Hc E2) as [H|H]; [left; exact H|].
      right. apply IH. right. exact H. }
    apply IH. destruct Hor as [H|H].
    + left. rewrite blank_app, H. reflexivity.
    + cbn in H. apply andb_false_iff in H as [H|H]; [left|right; exact H].
      rewrite blank_app. cbn. rewrite H. apply andb_false_r.
Qed.

Lemma split_by_sentences_blank (s : text) :
  blank s = true -> TextSplitter._split_by_sentences s = [].
Proof.
  intros Hs. unfold TextSplitter._split_by_sentences, Re.split_sentence_boundaries.
  pose proof (split_scan_blank None false [] s eq_refl Hs) as Hall.
  induction Hall as [|p ps Hp _ IH]; [reflexivity|].
  rewrite filter_cons_False; [exact IH|].
  intros Hn. apply Hn, strip_nil, Hp.
Qed.

Lemma split_by_sentences_not_nil (s : text) :
  blank s = false -> TextSplitter._split_by_sentences s <> [].
Proof.
  intros Hs. unfold TextSplitter._split_by_sentences, Re.split_sentence_boundaries.
  pose proof (split_scan_not_blank None false [] s (or_intror Hs)) as Hex.
  induction Hex as [p ps Hp|p ps _ IH].
  - rewrite filter_cons_True; [discriminate|].
    intros Hn. apply strip_nil in Hn. congruence.
  - destruct (decide (strip p <> [])) as [Hd|Hd].
    + rewrite filter_cons_True by exact Hd. discriminate.
    + rewrite filter_cons_False by exact Hd. exact IH.
Qed.

Lemma split_from_cur_not_nil (cur s : text) :
  cur <> [] -> split_from cur s <> [].
Proof.
  revert cur. induction s as [|c s IH]; intros cur Hcur; cbn.
  - destruct cur; [congruence|discriminate].
  - destruct (isspace c).
    + destruct cur; [congruence|discriminate].
    + apply IH. destruct cur; discriminate.
Qed.

Lemma split_from_not_nil (cur s : text) :
  blank s = false -> split_from cur s <> [].
Proof.
  revert cur. induction s as [|c s IH]; intros cur; cbn; [discriminate|].
  destruct (isspace c) eqn:Ec; cbn.
  - intros Hs. destruct cur; [apply IH, Hs|discriminate].
  - intros _. apply split_from_cur_not_nil. destruct cur; discriminate.
Qed.

Lemma split_long_sentence_not_nil (sentence : text) (chunk_size chunk_overlap : Z) :
  blank sentence = false ->
  TextSplitter._split_long_sentence sentence chunk_size chunk_overlap <> [].
Proof.
  intros Hs Hnil.
  destruct (words_kept_loop chunk_size chunk_overlap (split sentence) []
              ([], []) (split_words sentence))
    as (freshs & overlap & fresh & Hch & Hcur & Hne & Hwords & Hseen).
  { exists [], [], []. cbn. repeat split; try constructor; congruence. }
  unfold TextSplitter._split_long_sentence in Hnil.
  destruct (fold_left _ (split sentence) ([], [])) as [chunks current].
  cbn [fst snd app] in *.
  destruct current as [|c0 current'].
  - subst chunks. inversion Hch; subst.
    assert (fresh = []) as -> by (destruct overlap, fresh; cbn in *; congruence).
    cbn in Hseen. symmetry in Hseen.
    apply (split_from_not_nil [] sentence Hs Hseen).
  - destruct chunks; discriminate.
Qed.

(** A text longer than the chunk size yields no chunk at all exactly when
    it is blank (a blank text within the chunk size is returned as it
    is). *)
Theorem split_text_nil_iff_blank (self : TextSplitter.t) (s : text)
        (cs co : option Z) :
  len s > int_or cs (TextSplitter.chunk_size self) ->
  TextSplitter.split_text self s cs co = [] <-> blank s = true.
Proof.
  intros Hlong. unfold TextSplitter.split_text.
  destruct (Z.leb_spec (len s) (int_or cs (TextSplitter.chunk_size self)));
    [lia|].
  set (chunk_size := int_or cs (TextSplitter.chunk_size self)).
  set (chunk_overlap := int_or co (TextSplitter.chunk_overlap self)).
  split.
  - intros Hnil. destruct (blank s) eqn:Hs; [reflexivity|]. exfalso.
    pose proof (split_by_sentences_not_nil s Hs) as Hne.
    destruct (TextSplitter._split_by_sentences s) as [|s1 rest] eqn:Es;
      [congruence|].
    assert (Hs1 : blank s1 = false).
    { apply (split_by_sentences_not_blank s). rewrite Es. left. }
    cbn [fold_left] in Hnil.
    assert (Hfirst :
      exists chunks buffer,
        TextSplitter.split_text_step chunk_size chunk_overlap ([], []) s1
        = (chunks, buffer)
        /\ (chunks <> [] \/ blank buffer = false)).
    { unfold TextSplitter.split_text_step. cbn [app].
      destruct (len [] + len s1 >? chunk_size).
      - pose proof (split_long_sentence_not_nil s1 chunk_size chunk_overlap Hs1) as Hsc.
        pose proof (split_long_sentence_ends_ok chunk_size chunk_overlap s1) as Hok.
        destruct (TextSplitter._split_long_sentence s1 chunk_size chunk_overlap)
          as [|sc0 scs] using rev_ind; [congruence|].
        do 2 eexists. split; [reflexivity|]. right.
        unfold last_or. rewrite last_last.
        apply Forall_app in Hok as [_ Hok]. apply Forall_inv in Hok.
        apply head_ok_not_blank, Hok.
      - do 2 eexists. split; [reflexivity|]. right. exact Hs1. }
    destruct Hfirst as (chunks & buffer & Hstep & Hor). rewrite Hstep in Hnil.
    destruct Hor as [Hc|Hb].
    + rewrite split_text_loop_chunks, split_text_finish_chunks in Hnil.
      destruct chunks; [congruence|discriminate].
    + destruct (next_chunk_from_buffer chunk_size chunk_overlap rest chunks
                  buffer Hb) as (tail & more & Hf).
      rewrite Hf in Hnil. destruct chunks; discriminate.
  - intros Hs. rewrite (split_by_sentences_blank s Hs). reflexivity.
Qed.

Lemma split_text_nil_iff_blank_witness :
  len py"      " > int_or (Some 3) 1000
  /\ blank py"      " = true
  /\ TextSplitter.split_text (TextSplitter.init default_config)
       py"      " (Some 3) None = [].
Proof.
  split; [reflexivity|]. split; [reflexivity|].
  apply (split_text_nil_iff_blank (TextSplitter.init default_config)
           py"      " (Some 3) None); reflexivity.
Defined.

(** ** The size of the chunks *)

Lemma strip_len (s : text) : len (strip s) <= len s.
Proof.
  unfold strip.
  pose proof (suffix_len _ _ (lstrip_suffix (rstrip s))).
  destruct (rstrip_prefix s) as [k Hk].
  assert (len (rstrip s) <= len s).
  { rewrite Hk at 2. unfold len. rewrite length_app. lia. }
  lia.
Qed.

Section ChunkBound.
Variables chunk_size chunk_overlap : Z.
Hypothesis overlap_pos : 0 < chunk_overlap.

(** Chunks and buffer stay within [chunk_size + chunk_overlap]. *)
Definition bounded (st : list text * text) : Prop :=
  Forall (fun chunk => len chunk <= chunk_size + chunk_overlap) (fst st)
  /\ len (snd st) <= chunk_size + chunk_overlap.

Lemma split_text_step_bounded (st : list text * text) (sentence : text) :
  len sentence <= chunk_size -> bounded st ->
  bounded (TextSplitter.split_text_step chunk_size chunk_overlap st sentence).
Proof.
  intros Hs [Hch Hbuf]. destruct st as [chunks buffer]. cbn [fst snd] in *.
  unfold TextSplitter.split_text_step.
  destruct (Z.gtb_spec (len buffer + len sentence) chunk_size) as [Hgt|Hle].
  - destruct buffer as [|c0 buffer'].
    + change (len []) with 0 in Hgt. lia.
    + split; cbn [fst snd].
      * apply Forall_app. split; [exact Hch|]. constructor; [|constructor].
        pose proof (strip_len (c0 :: buffer')). lia.
      * pose proof (get_overlap_text_len (c0 :: buffer') chunk_overlap overlap_pos).
        unfold len in *. rewrite length_app. lia.
  - split; cbn [fst snd]; [exact Hch|].
    unfold len in *. rewrite length_app. lia.
Qed.

Lemma split_text_loop_bounded (sentences : list text) (st : list text * text) :
  Forall (fun sentence => len sentence <= chunk_size) sentences ->
  bounded st ->
  bounded (fold_left (TextSplitter.split_text_step chunk_size chunk_overlap)
                     sentences st).
Proof.
  intros Hs. revert st.
  induction Hs as [|s l Hs _ IH]; intros st Hst; cbn [fold_left]; [exact Hst|].
  apply IH, split_text_step_bounded; assumption.
Qed.

End ChunkBound.

(** With a positive overlap, when every sentence (trailing space included)
    has at most [chunk_size] characters, every chunk of a text longer than
    the chunk size has at most [chunk_size + chunk_overlap] characters. *)
Theorem split_text_chunk_bound (self : TextSplitter.t) (s : text)
        (cs co : option Z) :
  let chunk_size := int_or cs (TextSplitter.chunk_size self) in
  let chunk_overlap := int_or co (TextSplitter.chunk_overlap self) in
  len s > chunk_size ->
  0 < chunk_overlap ->
  Forall (fun sentence => len sentence <= chunk_size)
         (TextSplitter._split_by_sentences s) ->
  Forall (fun chunk => len chunk <= chunk_size + chunk_overlap)
         (TextSplitter.split_text self s cs co).
Proof.
  intros chunk_size chunk_overlap Hlong Hpos Hsent.
  unfold TextSplitter.split_text. fold chunk_size chunk_overlap.
  destruct (Z.leb_spec (len s) chunk_size); [lia|].
  destruct (TextSplitter._split_by_sentences s) as [|s1 rest] eqn:Es;
    [constructor|].
  assert (Hsize : 0 <= chunk_size).
  { apply Forall_inv in Hsent. unfold len in Hsent. lia. }
  rewrite <- Es in *. clear Es s1 rest.
  destruct (split_text_loop_bounded chunk_size chunk_overlap Hpos
              (TextSplitter._split_by_sentences s) ([], []) Hsent)
    as [Hch Hbuf].
  { split; [constructor|]. cbn. unfold len. cbn. lia. }
  destruct (fold_left _ (TextSplitter._split_by_sentences s) ([], []))
    as [chunks buffer].
  cbn [fst snd] in *. unfold TextSplitter.split_text_finish.
  destruct (strip buffer) eqn:Es; [exact Hch|]. rewrite <- Es.
  apply Forall_app. split; [exact Hch|]. constructor; [|constructor].
  pose proof (strip_len buffer). lia.
Qed.

Lemma split_text_chunk_bound_witness :
  len py"aa bb cc. dddddddd." > int_or (Some 10) 1000
  /\ 0 < int_or (Some 5) 200
  /\ Forall (fun sentence => len sentence <= int_or (Some 10) 1000)
            (TextSplitter._split_by_sentences py"aa bb cc. dddddddd.")
  /\ Forall (fun chunk => len chunk <= 10 + 5)
            (TextSplitter.split_text (TextSplitter.init default_config)
               py"aa bb cc. dddddddd." (Some 10) (Some 5)).
Proof.
  assert (Hs : Forall (fun sentence => len sentence <= int_or (Some 10) 1000)
                 (TextSplitter._split_by_sentences py"aa bb cc. dddddddd.")).
  { repeat constructor; vm_compute; discriminate. }
  split; [reflexivity|]. split; [reflexivity|]. split; [exact Hs|].
  apply (split_text_chunk_bound (TextSplitter.init default_config)
           py"aa bb cc. dddddddd." (Some 10) (Some 5));
    [reflexivity | reflexivity | exact Hs].
Defined.

(** ** Replies of the store that are not aligned *)

Lemma mapM_result_raise {A B} (f : A -> result B) (l : list A) (a : A) (e : exn) :
  a ∈ l -> f a = Raise e -> exists e', mapM f l = Raise e'.
Proof.
  induction l as [|x l IH]; intros Hin Hf; [inversion Hin|].
  cbn. destruct (f x) as [b|ex] eqn:Ex; cbn; [|eauto].
  apply elem_of_cons in Hin as [->|Hin]; [congruence|].
  destruct (IH Hin Hf) as [e' ->]. cbn. eauto.
Qed.

Lemma map_seq_nth {A B} (g : A -> B) (l : list A) (d : A) :
  map (fun i => g (nth i l d)) (seq 0 (length l)) = map g l.
Proof.
  apply list_eq. intros i. rewrite !list_lookup_fmap.
  destruct (l !! i) as [x|] eqn:Hi; cbn.
  - rewrite lookup_seq_lt by (apply lookup_lt_Some in Hi; lia). cbn.
    rewrite (nth_lookup_Some _ _ _ _ Hi). reflexivity.
  - rewrite lookup_seq_ge by (apply lookup_ge_None in Hi; lia). reflexivity.
Qed.

Section RetrieverReplies.
Context {M E C : Type} `{SentenceTransformer M E} `{ChromaCollection C E}.
Import DocumentRetriever.

Lemma retrieve_formats (self : t M C) (c : C) (query : text)
      (n_results count : Z) (query_embedding : E) (results : QueryResult) :
  collection self = Some c ->
  coll_count c = Returns count ->
  count <> 0 ->
  EmbeddingManager.embed_text (embedding_manager self) query = Ok query_embedding ->
  coll_query c [query_embedding] (Z.min n_results count) = Returns results ->
  retrieve self query n_results
  = match format_results results with
    | Ok documents => Ok documents
    | Raise _ => Ok []
    end.
Proof.
  intros Hc Hcount Hne Hemb Hq.
  rewrite (retrieve_initialized self c) by assumption.
  unfold retrieve_try. rewrite Hcount. cbn.
  destruct (Z.eqb_spec count 0); [contradiction|].
  rewrite Hemb. cbn. rewrite Hq. reflexivity.
Qed.

Lemma format_results_row (results : QueryResult) (d0 : pyval)
      (docs' : list pyval) (rd : list (list pyval)) :
  qr_documents results = Some ((d0 :: docs') :: rd) ->
  format_results results
  = mapM (result_doc results (d0 :: docs')) (seq 0 (length (d0 :: docs'))).
Proof. intros Hd. unfold format_results. rewrite Hd. reflexivity. Qed.

(** When the reply carries no metadatas and no distances ([None] or an
    empty list), every returned record has the empty dict as metadata and
    [None] as distance, one record per returned document, in order. *)
Theorem retrieve_defaults_without_metadata (self : t M C) (c : C)
        (query : text) (n_results count : Z) (query_embedding : E)
        (results : QueryResult) (docs : list pyval) (rd : list (list pyval)) :
  collection self = Some c ->
  coll_count c = Returns count ->
  count <> 0 ->
  EmbeddingManager.embed_text (embedding_manager self) query = Ok query_embedding ->
  coll_query c [query_embedding] (Z.min n_results count) = Returns results ->
  qr_documents results = Some (docs :: rd) ->
  truthy (qr_metadatas results) = false ->
  truthy (qr_distances results) = false ->
  retrieve self query n_results
  = Ok (map (fun d => retrieved d (VDict ∅) VNone) docs).
Proof.
  intros Hc Hcount Hne Hemb Hq Hd Hm Hx.
  rewrite (retrieve_formats self c query n_results count query_embedding results)
    by assumption.
  destruct docs as [|d0 docs']; [unfold format_results; rewrite Hd; reflexivity|].
  rewrite (format_results_row results d0 docs' rd Hd).
  remember (d0 :: docs') as docs eqn:Edocs. clear Edocs.
  rewrite (mapM_result_seq _ (fun i => retrieved (nth i docs VNone) (VDict ∅) VNone)).
  - f_equal. apply (map_seq_nth (fun d => retrieved d (VDict ∅) VNone)).
  - intros i Hi. unfold result_doc, index.
    rewrite (lookup_nth_lt docs i VNone) by lia. cbn. rewrite Hm, Hx. reflexivity.
Qed.

(** The result is all or nothing: when the metadatas row (or the distances
    row) of the reply is shorter than the documents row, the [IndexError] is
    swallowed and [retrieve] returns the empty list, not the records that
    were already built. *)
Theorem retrieve_misaligned_reply_is_empty (self : t M C) (c : C)
        (query : text) (n_results count : Z) (query_embedding : E)
        (results : QueryResult) (docs : list pyval) (rd : list (list pyval)) :
  collection self = Some c ->
  coll_count c = Returns count ->
  count <> 0 ->
  EmbeddingManager.embed_text (embedding_manager self) query = Ok query_embedding ->
  coll_query c [query_embedding] (Z.min n_results count) = Returns results ->
  qr_documents results = Some (docs :: rd) ->
  (exists mds rm, qr_metadatas results = Some (mds :: rm)
                  /\ (length mds < length docs)%nat)
  \/ (exists dists rdd, qr_distances results = Some (dists :: rdd)
                        /\ (length dists < length docs)%nat) ->
  retrieve self query n_results = Ok [].
Proof.
  intros Hc Hcount Hne Hemb Hq Hd Hshort.
  rewrite (retrieve_formats self c query n_results count query_embedding results)
    by assumption.
  destruct docs as [|d0 docs']; [unfold format_results; rewrite Hd; reflexivity|].
  rewrite (format_results_row results d0 docs' rd Hd).
  remember (d0 :: docs') as docs eqn:Edocs. clear Edocs Hd.
  assert (Hfail : exists i e, i ∈ seq 0 (length docs)
                              /\ result_doc results docs i = Raise e).
  { destruct Hshort as [(mds & rm & Hm & Hlen)|(dists & rdd & Hx & Hlen)].
    - exists (length mds), IndexError. split; [apply elem_of_seq; lia|].
      unfold result_doc, index.
      rewrite (lookup_nth_lt docs (length mds) VNone) by lia. cbn.
      rewrite Hm. cbn.
      rewrite (lookup_ge_None_2 mds (length mds)) by lia. reflexivity.
    - destruct (truthy (qr_metadatas results)) eqn:Em.
      + destruct (qr_metadatas results) as [[|mds rm]|] eqn:Hm; try discriminate.
        destruct (Nat.lt_ge_cases (length dists) (length mds)) as [Hlt|Hge].
        * exists (length dists), IndexError. split; [apply elem_of_seq; lia|].
          unfold result_doc, index.
          rewrite (lookup_nth_lt docs (length dists) VNone) by lia. cbn.
          rewrite Hm, Hx. cbn.
          rewrite (lookup_nth_lt mds (length dists) VNone) by lia. cbn.
          rewrite (lookup_ge_None_2 dists (length dists)) by lia. reflexivity.
        * exists (length mds), IndexError. split; [apply elem_of_seq; lia|].
          unfold result_doc, index.
          rewrite (lookup_nth_lt docs (length mds) VNone) by lia. cbn.
          rewrite Hm. cbn.
      rewrite (lookup_ge_None_2 mds (length mds)) by lia. reflexivity.
      + exists (length dists), IndexError. split; [apply elem_of_seq; lia|].
        unfold result_doc, index.
        rewrite (lookup_nth_lt docs (length dists) VNone) by lia. cbn.
        rewrite Em, Hx. cbn.
        rewrite (lookup_ge_None_2 dists (length dists)) by lia. reflexivity. }
  destruct Hfail as (i & e & Hi & He).
  destruct (mapM_result_raise _ _ i e Hi He) as [e' ->]. reflexivity.
Qed.

End RetrieverReplies.

(** A store that holds one record and answers every query with the same
    reply. *)
Module Canned.

#[global] Instance canned_collection : ChromaCollection QueryResult Z := {
  coll_count _ := Returns 1;
  coll_query reply _ _ := Returns reply;
  coll_add reply _ := Returns reply
}.

Definition retriever (reply : QueryResult)
  : DocumentRetriever.t Stub.model QueryResult :=
  DocumentRetriever.mk py"fitflix_documents" Stub.manager (Some reply).

(** Documents only. *)
Definition bare_reply : QueryResult :=
  {| qr_documents := Some [[VStr py"first"; VStr py"second"]];
     qr_metadatas := None;
     qr_distances := None |}.

(** Two documents, one metadata. *)
Definition short_reply : QueryResult :=
  {| qr_documents := Some [[VStr py"first"; VStr py"second"]];
     qr_metadatas := Some [[VDict ∅]];
     qr_distances := Some [[VFloat (float_ratio 1 10); VFloat (float_ratio 2 10)]] |}.

End Canned.

Lemma retrieve_defaults_without_metadata_witness :
  truthy (qr_metadatas Canned.bare_reply) = false
  /\ truthy (qr_distances Canned.bare_reply) = false
  /\ DocumentRetriever.retrieve (Canned.retriever Canned.bare_reply) py"query" 5
     = Ok [retrieved (VStr py"first") (VDict ∅) VNone;
           retrieved (VStr py"second") (VDict ∅) VNone].
Proof.
  split; [reflexivity|]. split; [reflexivity|].
  apply (retrieve_defaults_without_metadata (Canned.retriever Canned.bare_reply)
           Canned.bare_reply py"query" 5 1 (len py"query") Canned.bare_reply
           [VStr py"first"; VStr py"second"] []);
    try reflexivity. discriminate.
Defined.

Lemma retrieve_misaligned_reply_is_empty_witness :
  qr_documents Canned.short_reply = Some [[VStr py"first"; VStr py"second"]]
  /\ qr_metadatas Canned.short_reply = Some [[VDict ∅]]
  /\ DocumentRetriever.retrieve (Canned.retriever Canned.short_reply) py"query" 5
     = Ok [].
Proof.
  split; [reflexivity|]. split; [reflexivity|].
  apply (retrieve_misaligned_reply_is_empty (Canned.retriever Canned.short_reply)
           Canned.short_reply py"query" 5 1 (len py"query") Canned.short_reply
           [VStr py"first"; VStr py"second"] []);
    try reflexivity; [discriminate|].
  left. exists [VDict ∅], []. split; [reflexivity|cbn; lia].
Defined.

(** ** [add_documents]: batches and ids *)

Lemma to_int_not_nil (n : Z) : Z.to_int n <> Decimal.Pos Decimal.Nil
                               /\ Z.to_int n <> Decimal.Neg Decimal.Nil.
Proof.
  split; intros Hn; pose proof (DecimalZ.of_to n) as Hof; rewrite Hn in Hof;
    cbn in Hof; subst n; discriminate.
Qed.

Lemma str_of_int_inj (a b : Z) : str_of_int a = str_of_int b -> a = b.
Proof.
  unfold str_of_int. intros Heq.
  apply (f_equal string_of_list_ascii) in Heq.
  rewrite !string_of_list_ascii_of_string in Heq.
  apply (f_equal NilZero.int_of_string) in Heq.
  destruct (to_int_not_nil a), (to_int_not_nil b).
  rewrite !NilZero.isi in Heq by assumption.
  injection Heq as Heq. apply DecimalZ.to_int_inj, Heq.
Qed.




Section AddDocuments.
Context {M E C : Type} `{SentenceTransformer M E} `{ChromaCollection C E}.
Import DocumentRetriever.

(** The calls of [collection.add], one after the other, up to the first
    failure. *)
Fixpoint add_each (c : C) (batches : list (Batch E)) : ext C :=
  match batches with
  | [] => Returns c
  | batch :: batches' =>
      match coll_add c batch with
      | Returns c' => add_each c' batches'
      | Fails msg => Fails msg
      end
  end.

(** The batch that starts at index [i]. *)
Definition batch_at (documents : list text) (metadata : list pydict)
           (ids : list text) (embeddings : list E) (i : nat) : Batch E :=
  {| batch_documents := take 100 (drop i documents);
     batch_metadatas := take 100 (drop i metadata);
     batch_ids := take 100 (drop i ids);
     batch_embeddings := take 100 (drop i embeddings) |}.

Lemma add_batches_outcome (documents : list text) (metadata : list pydict)
      (ids : list text) (embeddings : list E) (starts : list nat)
      (c c' : C) (r : result unit) :
  add_batches c documents metadata ids embeddings starts = (c', r) ->
  match r with
  | Ok _ =>
      add_each c (map (batch_at documents metadata ids embeddings) starts)
      = Returns c'
  | Raise e =>
      exists done failed rest msg,
        map (batch_at documents metadata ids embeddings) starts
        = done ++ failed :: rest
        /\ add_each c done = Returns c'
        /\ coll_add c' failed = Fails msg
        /\ e = External msg
  end.
Proof.
  revert c. induction starts as [|i starts IH]; intros c; cbn [add_batches].
  - intros [= <- <-]. reflexivity.
  - fold (batch_at documents metadata ids embeddings i).
    destruct (coll_add c (batch_at documents metadata ids embeddings i))
      as [c1|msg] eqn:Eadd.
    + intros Hrest. specialize (IH c1 Hrest). destruct r as [u|e].
      * cbn. rewrite Eadd. exact IH.
      * destruct IH as (done & failed & rest & msg & Hmap & Hdone & Hfail & He).
        exists (batch_at documents metadata ids embeddings i :: done),
          failed, rest, msg.
        cbn. rewrite Hmap, Eadd. auto.
    + intros [= <- <-].
      exists [], (batch_at documents metadata ids embeddings i),
        (map (batch_at documents metadata ids embeddings) starts), msg.
      cbn. auto.
Qed.

(** The ids that [add_documents] passes on: the ones given, or
    [doc_0], [doc_1], ... *)
Definition ids_used (documents : list text) (ids : option (list text))
  : list text :=
  if truthy ids then default [] ids
  else map (fun i => py"doc_" ++ str_of_int (Z.of_nat i))
           (seq 0 (length documents)).


(** [add_documents] is not atomic: when a batch is refused, the error is
    re-raised and the store keeps the batches added before it. *)
Theorem add_documents_keeps_earlier_batches (self self' : t M C) (c : C)
        (documents : list text) (metadata : list pydict)
        (ids : option (list text)) (embeddings : list E) (e : exn) :
  collection self = Some c ->
  EmbeddingManager.embed_texts (embedding_manager self) documents = Ok embeddings ->
  add_documents self documents metadata ids = (self', Raise e) ->
  exists done failed rest msg c',
    map (batch_at documents metadata (ids_used documents ids) embeddings)
        (batch_starts (length documents))
    = done ++ failed :: rest
    /\ add_each c done = Returns c'
    /\ coll_add c' failed = Fails msg
    /\ e = External msg
    /\ collection self' = Some c'.
Proof.
  intros Hc Hemb. unfold add_documents. rewrite Hc, Hemb.
  fold (ids_used documents ids).
  destruct (add_batches c documents metadata (ids_used documents ids) embeddings
              (batch_starts (length documents))) as [c' r] eqn:Eb.
  intros [= <- ->]. apply add_batches_outcome in Eb.
  destruct Eb as (done & failed & rest & msg & Hmap & Hdone & Hfail & He).
  exists done, failed, rest, msg, c'. auto.
Qed.

(** Without ids, the generated ids are [doc_0 .. doc_(n-1)]: pairwise
    distinct, one per document, and a function of the number of documents
    only, so two calls generate the same ids for their first documents. *)
Theorem generated_ids_distinct (documents documents' : list text)
        (ids : option (list text)) :
  truthy ids = false ->
  NoDup (ids_used documents ids)
  /\ length (ids_used documents ids) = length documents
  /\ (forall i, (i < length documents)%nat -> (i < length documents')%nat ->
        ids_used documents ids !! i = ids_used documents' ids !! i).
Proof.
  intros Hids. unfold ids_used. rewrite Hids. split; [|split].
  - apply NoDup_fmap_2; [|apply NoDup_seq].
    intros i j Hij. apply app_inv_head in Hij.
    apply str_of_int_inj in Hij. lia.
  - rewrite length_map, length_seq. reflexivity.
  - intros i Hi Hi'. rewrite !list_lookup_fmap, !lookup_seq_lt by lia.
    reflexivity.
Qed.

End AddDocuments.

(** A store with room for 100 documents: it counts what it holds and
    refuses a batch that would exceed its capacity. *)
Module Limited.

#[global] Instance limited_collection : ChromaCollection nat Z := {
  coll_count held := Returns (Z.of_nat held);
  coll_query _ _ _ := Fails py"not supported";
  coll_add held batch :=
    if (held + length (batch_documents Z batch) <=? 100)%nat
    then Returns (held + length (batch_documents Z batch))%nat
    else Fails py"collection is full"
}.

Definition retriever : DocumentRetriever.t Stub.model nat :=
  DocumentRetriever.mk py"fitflix_documents" Stub.manager (Some 0%nat).

End Limited.


Lemma add_documents_keeps_earlier_batches_witness :
  exists self' e done failed msg c',
    DocumentRetriever.add_documents Limited.retriever
      (repeat py"x" 150) (repeat ∅ 150) None = (self', Raise e)
    /\ add_each 0%nat done = Returns c'
    /\ coll_add c' failed = Fails msg
    /\ e = External msg
    /\ DocumentRetriever.collection self' = Some c'.
Proof.
  destruct (DocumentRetriever.add_documents Limited.retriever
              (repeat py"x" 150) (repeat ∅ 150) None)
    as [self' [u|e]] eqn:Ea; [vm_compute in Ea; discriminate|].
  assert (Hemb : EmbeddingManager.embed_texts
                   (DocumentRetriever.embedding_manager Limited.retriever)
                   (repeat py"x" 150) = Ok (repeat 1 150))
    by (vm_compute; reflexivity).
  destruct (add_documents_keeps_earlier_batches Limited.retriever self' 0%nat
              (repeat py"x" 150) (repeat ∅ 150) None (repeat 1 150) e
              eq_refl Hemb Ea)
    as (done & failed & rest & msg & c' & _ & Hdone & Hfail & He & Hc).
  exists self', e, done, failed, msg, c'. auto.
Defined.

Lemma generated_ids_distinct_witness :
  truthy (@None (list text)) = false
  /\ NoDup (ids_used [py"one"; py"two"; py"three"] None)
  /\ ids_used [py"one"; py"two"; py"three"] None
     = [py"doc_0"; py"doc_1"; py"doc_2"].
Proof.
  split; [reflexivity|]. split; [|reflexivity].
  exact (proj1 (generated_ids_distinct [py"one"; py"two"; py"three"] [] None
                  eq_refl)).
Defined.

(** ** [merge_small_chunks] *)

Lemma lstrip_blank_prefix (s : text) :
  exists k, s = k ++ lstrip s /\ blank k = true.
Proof.
  induction s as [|c s (k & Hk & Hb)]; [exists []; split; reflexivity|].
  cbn [lstrip]. destruct (isspace c) eqn:Ec.
  - exists (c :: k). split; [cbn; congruence|]. cbn. rewrite Ec. exact Hb.
  - exists []. split; reflexivity.
Qed.

Lemma rstrip_blank_suffix (s : text) :
  exists k, s = rstrip s ++ k /\ blank k = true.
Proof.
  destruct (lstrip_blank_prefix (rev s)) as (k & Hk & Hb).
  exists (rev k). split; [|rewrite blank_rev; exact Hb].
  unfold rstrip. rewrite <- rev_app_distr, <- Hk, rev_involutive. reflexivity.
Qed.

Lemma split_from_blank_tail (cur a k : text) :
  blank k = true -> split_from cur (a ++ k) = split_from cur a.
Proof.
  intros Hk. revert cur. induction a as [|c a IH]; intros cur.
  - cbn [app]. induction k as [|x k IHk]; [reflexivity|].
    cbn in Hk. apply andb_true_iff in Hk as [Hx Hk].
    cbn. rewrite Hx. destruct cur as [|c0 cur'].
    + rewrite (IHk Hk). reflexivity.
    + f_equal.
      clear IHk. induction k as [|y k IHk]; [reflexivity|].
      cbn in Hk. apply andb_true_iff in Hk as [Hy Hk].
      cbn. rewrite Hy. apply IHk, Hk.
  - cbn. destruct (isspace c); [destruct cur; rewrite IH; reflexivity|apply IH].
Qed.

Lemma split_blank_head (k s : text) :
  blank k = true -> split (k ++ s) = split s.
Proof.
  intros Hk. unfold split. induction k as [|x k IH]; [reflexivity|].
  cbn in Hk. apply andb_true_iff in Hk as [Hx Hk].
  cbn. rewrite Hx. apply IH, Hk.
Qed.

Lemma split_strip (s : text) : split (strip s) = split s.
Proof.
  destruct (rstrip_blank_suffix s) as (k & Hk & Hb).
  destruct (lstrip_blank_prefix (rstrip s)) as (k' & Hk' & Hb').
  unfold strip. rewrite Hk at 2. unfold split at 2.
  rewrite split_from_blank_tail by exact Hb.
  rewrite Hk' at 2. fold (split (k' ++ lstrip (rstrip s))).
  rewrite split_blank_head by exact Hb'. reflexivity.
Qed.



Section MergeSmallChunks.
Variable self : TextSplitter.t.

Local Abbreviation step := (TextSplitter.merge_step self).

(** The words of a state of the loop: those of the merged chunks, then
    those of the chunk under construction. *)
Definition merge_words (st : list text * text) : list text :=
  concat (map split (fst st)) ++ split (snd st).

Lemma merge_step_words (st : list text * text) (chunk : text) :
  merge_words (step st chunk) = merge_words st ++ split chunk.
Proof.
  destruct st as [merged cur]. unfold TextSplitter.merge_step, merge_words.
  destruct (len cur + len chunk <? TextSplitter.chunk_size self).
  - cbn [fst snd]. rewrite <- app_assoc. f_equal.
    destruct cur as [|c0 cur']; [reflexivity|].
    cbn [app]. unfold split.
    apply (split_from_app [] (c0 :: cur') chunk space). reflexivity.
  - destruct cur as [|c0 cur']; cbn [fst snd].
    + cbn. rewrite app_nil_r. reflexivity.
    + rewrite map_app, concat_app. cbn [map concat].
      rewrite split_strip, app_nil_r, <- app_assoc. reflexivity.
Qed.

Lemma merge_loop_words (chunks : list text) (st : list text * text) :
  merge_words (fold_left step chunks st)
  = merge_words st ++ concat (map split chunks).
Proof.
  revert st. induction chunks as [|c chunks IH]; intros st; cbn [fold_left].
  - cbn. rewrite app_nil_r. reflexivity.
  - rewrite IH, merge_step_words, <- app_assoc. reflexivity.
Qed.

(** Merging neither loses nor reorders nor joins words: the words of the
    merged chunks, in order, are the words of the given chunks. *)
Theorem merge_small_chunks_keeps_words (chunks : list text) (min_size : Z) :
  concat (map split (TextSplitter.merge_small_chunks self chunks min_size))
  = concat (map split chunks).
Proof.
  unfold TextSplitter.merge_small_chunks.
  destruct chunks as [|c chunks']; [reflexivity|].
  pose proof (merge_loop_words (c :: chunks') ([], [])) as Hw.
  destruct (fold_left step (c :: chunks') ([], [])) as [merged cur].
  unfold merge_words in Hw. cbn [fst snd] in Hw.
  change (concat (map split []) ++ split []) with (@nil text) in Hw.
  cbn [app] in Hw. rewrite <- Hw.
  destruct cur as [|c0 cur'].
  - cbn. rewrite app_nil_r. reflexivity.
  - rewrite map_app, concat_app. cbn [map concat].
    rewrite split_strip, app_nil_r. reflexivity.
Qed.






End MergeSmallChunks.

